(** * quicktype_runner: the schema pre-processor, the reference resolver and
      the command-line driver of [tools/quicktype_runner.js]

    The JavaScript file is embedded function by function.  What the file
    takes from its platform (the JSON codec, [url], [path], the external
    generator) is a field of [Runtime]; what it takes from the machine it
    runs on (files, network answers, environment) is a field of [World]. *)

From Stdlib Require Import String Ascii List ZArith Bool Lia.
Import ListNotations.
Open Scope string_scope.

(** ** Completions *)

(** The exceptions the runner can meet. *)
Inductive error : Type :=
| SyntaxError                     (* JSON.parse on a text that is not JSON *)
| TypeError                       (* property read on null, failed coercion, path.join on null *)
| ENOENT (file : string)          (* no such file, or no directory to write it in *)
| EISDIR (file : string)          (* readFileSync, writeFileSync: a directory *)
| ENOTDIR (file : string)         (* writeFileSync: the parent is not a directory *)
| LibraryError (message : string) (* raised inside quicktype-core or [url] *).

Inductive result (A : Type) : Type :=
| Return (a : A)
| Throw (e : error).
Arguments Return {A} a.
Arguments Throw {A} e.

Definition bind {A B : Type} (m : result A) (k : A -> result B) : result B :=
  match m with
  | Return a => k a
  | Throw e => Throw e
  end.

Notation "'let!' x ':=' m 'in' k" := (bind m (fun x => k))
  (at level 10, x name, m at level 100, k at level 200).

(** ** JSON values, as [JSON.parse] builds them *)

(** [number] is the type of IEEE doubles; it stays abstract.  The members of
    an object are kept in property order; their keys are pairwise distinct
    in every value [JSON.parse] returns. *)
#[local] Set Warnings "-register-all".

Inductive json (number : Type) : Type :=
| JNull
| JBool (b : bool)
| JNumber (n : number)
| JString (s : string)
| JArray (items : list (json number))
| JObject (members : list (string * json number)).
Arguments JNull {number}.
Arguments JBool {number} b.
Arguments JNumber {number} n.
Arguments JString {number} s.
Arguments JArray {number} items.
Arguments JObject {number} members.

Section JsonInduction.

Context {number : Type} (P : json number -> Prop).

Hypothesis on_null : P JNull.
Hypothesis on_bool : forall b, P (JBool b).
Hypothesis on_number : forall n, P (JNumber n).
Hypothesis on_string : forall s, P (JString s).
Hypothesis on_array : forall items, Forall P items -> P (JArray items).
Hypothesis on_object : forall members, P (JObject members).

(** Induction on a value and on the elements of its arrays. *)
Fixpoint json_array_ind (v : json number) : P v :=
  match v with
  | JNull => on_null
  | JBool b => on_bool b
  | JNumber n => on_number n
  | JString s => on_string s
  | JArray items =>
      on_array items
        ((fix all (l : list (json number)) : Forall P l :=
            match l with
            | [] => Forall_nil P
            | x :: rest => Forall_cons x (json_array_ind x) (all rest)
            end) items)
  | JObject members => on_object members
  end.

End JsonInduction.

(** Own-property lookup: the first member under [key]. *)
Fixpoint assoc_get {A : Type} (key : string) (members : list (string * A)) : option A :=
  match members with
  | [] => None
  | (k, v) :: rest => if String.eqb key k then Some v else assoc_get key rest
  end.

(** Property assignment: an existing member keeps its place, a new one goes
    last. *)
Fixpoint assoc_set {A : Type} (key : string) (v : A) (members : list (string * A))
  : list (string * A) :=
  match members with
  | [] => [(key, v)]
  | (k, x) :: rest =>
      if String.eqb key k then (k, v) :: rest else (k, x) :: assoc_set key v rest
  end.

Definition keys {A : Type} (members : list (string * A)) : list string :=
  map fst members.

(** Pairwise distinct keys, decided. *)
Fixpoint distinct (ks : list string) : bool :=
  match ks with
  | [] => true
  | k :: rest => negb (existsb (String.eqb k) rest) && distinct rest
  end.

(** The newline of ['\n@deprecated']. *)
Definition LF : string := String (ascii_of_nat 10) EmptyString.

(** Sequencing a list of computations from left to right. *)
Fixpoint mapM {A B : Type} (f : A -> result B) (l : list A) : result (list B) :=
  match l with
  | [] => Return []
  | x :: rest =>
      let! y := f x in
      let! ys := mapM f rest in
      Return (y :: ys)
  end.

(** ** The platform *)

(** A WHATWG [Response]: only what reading its body settles to is kept. *)
Record Response : Type := {
  body_text : result string
}.

(** What [await fetch(address)] does. *)
Inductive fetch_outcome : Type :=
| FetchResolved (response : Response)
| FetchRejected (e : error).

(** The legacy [url.parse] record; [None] is JavaScript's [null]. *)
Record Url : Type := {
  protocol : option string;
  hostname : option string;
  path : option string
}.

(** The external generator ([InputData.addSource] followed by [quicktype]
    with the runner's fixed options) seen from the runner: it emits lines,
    aborts, or asks the schema store for an address and goes on with the
    answer. *)
Inductive generator (schema : Type) : Type :=
| Emit (lines : list string)
| Abort (e : error)
| Resolve (address : string) (k : result (option schema) -> generator schema).
Arguments Emit {schema} lines.
Arguments Abort {schema} e.
Arguments Resolve {schema} address k.

(** ** The machine *)

Inductive node : Type :=
| File (text : string)
| Directory.

(** What [console.error] was given. *)
Inductive printed : Type :=
| Line (text : string)
| Failure (e : error).

(** [denied] is what the machine answers to a write it does not allow for a
    reason of its own (permissions, a read-only or full disk), if it does
    not allow it. *)
Record World : Type := {
  files : string -> option node;
  denied : string -> option error;
  network : string -> fetch_outcome;
  BUILD_WORKSPACE_DIRECTORY : option string;
  stdout : list string;
  stderr : list printed
}.

Record Runtime : Type := {
  number : Type;
  (* Number::toString, and ToBoolean on numbers (false on +0 and -0) *)
  Number_toString : number -> string;
  Number_toBoolean : number -> bool;
  (* JSON.parse ([None]: SyntaxError) and JSON.stringify *)
  JSON_parse : string -> option (json number);
  JSON_stringify : json number -> string;
  (* String.prototype.trim *)
  String_trim : string -> string;
  (* require('url').parse *)
  URL_parse : string -> result Url;
  (* require('path') *)
  path_join : list string -> string;
  path_dirname : string -> string;
  path_isAbsolute : string -> bool;
  path_resolve : string -> string -> string;
  (* __dirname of the runner *)
  dirname : string;
  (* quicktype-core: parseJSON(text, 'JSON Schema', address) and the generator *)
  parseJSON : string -> string -> result (json number);
  quicktype : string -> generator (json number)
}.

Section Runner.

Context (rt : Runtime).

#[local] Abbreviation value := (json (number rt)).

(** ** Coercions of the language *)

(** The own member [name] of [v]; [None] is [undefined].  For a non-null
    [v] and the three names the runner reads ([properties], [description],
    [x-deprecated]) this is [v[name]]: no prototype and no array, string,
    number or boolean defines them. *)
Definition get (v : value) (name : string) : option value :=
  match v with
  | JObject members => assoc_get name members
  | _ => None
  end.

(** [v.name = x], reached on objects only. *)
Definition set (v : value) (name : string) (x : value) : value :=
  match v with
  | JObject members => JObject (assoc_set name x members)
  | _ => v
  end.

(** ToBoolean. *)
Definition ToBoolean (v : option value) : bool :=
  match v with
  | None => false
  | Some JNull => false
  | Some (JBool b) => b
  | Some (JNumber n) => Number_toBoolean rt n
  | Some (JString s) => negb (String.eqb s "")
  | Some (JArray _) => true
  | Some (JObject _) => true
  end.

(** ToString after ToPrimitive, as [v + 'text'] applies it.  An array joins
    its elements with commas, null elements giving the empty text.  An
    object answers with [Object.prototype.toString] unless an own member
    named [toString] (never callable in parsed JSON) hides it, in which case
    the conversion throws. *)
Fixpoint ToString (v : value) : result string :=
  match v with
  | JNull => Return "null"
  | JBool true => Return "true"
  | JBool false => Return "false"
  | JNumber n => Return (Number_toString rt n)
  | JString s => Return s
  | JArray items =>
      (fix join (l : list value) : result string :=
         match l with
         | [] => Return ""
         | x :: rest =>
             let! s := match x with JNull => Return "" | _ => ToString x end in
             match rest with
             | [] => Return s
             | _ => let! r := join rest in Return (s ++ "," ++ r)
             end
         end) items
  | JObject members =>
      match assoc_get "toString" members with
      | Some _ => Throw TypeError
      | None => Return "[object Object]"
      end
  end.

(** ** [appendDeprecatedDescription] *)

(** ['\n@deprecated' + (typeof deprecated === 'string' ? ` ${deprecated}` : '')] *)
Definition marker (deprecated : option value) : string :=
  LF ++ "@deprecated" ++
  match deprecated with
  | Some (JString text) => " " ++ text
  | _ => ""
  end.

(** One iteration of the loop on [props[key]]; the answer is the entry as
    the iteration leaves it.  Destructuring [null] throws. *)
Definition loop_body (entry : value) : result value :=
  match entry with
  | JNull => Throw TypeError
  | _ =>
      let description :=
        match get entry "description" with
        | None => JString ""
        | Some d => d
        end in
      let deprecated := get entry "x-deprecated" in
      if negb (ToBoolean deprecated) then Return entry
      else
        let! text := ToString description in
        Return (set entry "description" (JString (text ++ marker deprecated)))
  end.

(** [for (const key in props)] on an object: the keys are enumerated once,
    each iteration reads [props[key]] and leaves the entry in place. *)
Fixpoint for_in (ks : list string) (props : list (string * value))
  : result (list (string * value)) :=
  match ks with
  | [] => Return props
  | key :: rest =>
      match assoc_get key props with
      | None => Throw TypeError
      | Some entry =>
          let! entry' := loop_body entry in
          for_in rest (assoc_set key entry' props)
      end
  end.

(** The loop on whatever [content.properties] is.  An array is enumerated by
    index; [undefined], [null], numbers and booleans have no enumerable key;
    the keys of a string give one-character strings, which carry no
    annotation. *)
Definition loop (props : option value) : result (option value) :=
  match props with
  | Some (JObject members) =>
      let! members' := for_in (keys members) members in
      Return (Some (JObject members'))
  | Some (JArray items) =>
      let! items' := mapM loop_body items in
      Return (Some (JArray items'))
  | _ => Return props
  end.

(** [content] once the loop has run: [props] aliases [content.properties]. *)
Definition annotate (content : value) : result value :=
  match content with
  | JNull => Throw TypeError
  | _ =>
      let! props' := loop (get content "properties") in
      match props' with
      | Some p => Return (set content "properties" p)
      | None => Return content
      end
  end.

Definition appendDeprecatedDescription (schema : string) : result string :=
  match JSON_parse rt schema with
  | None => Throw SyntaxError
  | Some content =>
      let! content' := annotate content in
      Return (JSON_stringify rt content')
  end.

(** ** [fs] and [console] *)

Definition existsSync (w : World) (file : string) : bool :=
  match files w file with
  | Some _ => true
  | None => false
  end.

Definition readFileSync (w : World) (file : string) : result string :=
  match files w file with
  | Some (File text) => Return text
  | Some Directory => Throw (EISDIR file)
  | None => Throw (ENOENT file)
  end.

(** Writing replaces the whole file.  It throws when the path is a
    directory, when the directory that is to hold the file is missing or is
    a file, and when the machine denies the write; nothing is written
    then. *)
Definition writeFileSync (file data : string) (w : World) : result World :=
  match files w file with
  | Some Directory => Throw (EISDIR file)
  | _ =>
      match files w (path_dirname rt file) with
      | None => Throw (ENOENT file)
      | Some (File _) => Throw (ENOTDIR file)
      | Some Directory =>
          match denied w file with
          | Some e => Throw e
          | None =>
              Return {| files := fun f =>
                                   if String.eqb f file then Some (File data) else files w f;
                        denied := denied w;
                        network := network w;
                        BUILD_WORKSPACE_DIRECTORY := BUILD_WORKSPACE_DIRECTORY w;
                        stdout := stdout w;
                        stderr := stderr w |}
          end
      end
  end.

Definition console_log (text : string) (w : World) : World :=
  {| files := files w;
     denied := denied w;
     network := network w;
     BUILD_WORKSPACE_DIRECTORY := BUILD_WORKSPACE_DIRECTORY w;
     stdout := stdout w ++ [text];
     stderr := stderr w |}.

Definition console_error (item : printed) (w : World) : World :=
  {| files := files w;
     denied := denied w;
     network := network w;
     BUILD_WORKSPACE_DIRECTORY := BUILD_WORKSPACE_DIRECTORY w;
     stdout := stdout w;
     stderr := stderr w ++ [item] |}.

(** ** [FetchingJSONSchemaStore.fetch] *)

(** What the variable [content] of [fetch] can hold: [null], a text, or the
    promise that [response.text()] returned. *)
Inductive content_value : Type :=
| Null
| Text (text : string)
| TextPromise (settles : result string).

(** The text [JSON.parse] sees when handed [content]. *)
Definition content_text (content : content_value) : string :=
  match content with
  | Null => "null"
  | Text text => text
  | TextPromise _ => "[object Promise]"
  end.

Definition is_ng_cli (url : Url) : bool :=
  match protocol url with
  | Some p => String.eqb p "ng-cli:"
  | None => false
  end.

Definition has_hostname (url : Url) : bool :=
  match hostname url with
  | Some h => negb (String.eqb h "")
  | None => false
  end.

(** The first [if]/[else if]: the custom scheme, then the network. *)
Definition fetch_remote (w : World) (address : string) (url : Url) : result content_value :=
  if is_ng_cli url then
    match hostname url, path url with
    | Some h, Some p =>
        let filePath := path_join rt [dirname rt; "../packages/angular/cli"; h; p] in
        let! text := readFileSync w filePath in
        Return (Text (String_trim rt text))
    | _, _ => Throw TypeError
    end
  else if has_hostname url then
    match network w address with
    | FetchResolved response => Return (TextPromise (body_text response))
    | FetchRejected _ => Return Null
    end
  else Return Null.

(** The second [if]: relative to the input file. *)
Definition fetch_relative (inPath : string) (w : World) (address : string)
    (content : content_value) : result content_value :=
  match content with
  | Null =>
      if negb (path_isAbsolute rt address) then
        let resolvedPath := path_join rt [path_dirname rt inPath; address] in
        if existsSync w resolvedPath then
          let! text := readFileSync w resolvedPath in
          Return (Text text)
        else Return Null
      else Return Null
  | _ => Return content
  end.

(** The third [if]: the address as a file name. *)
Definition fetch_literal (w : World) (address : string) (content : content_value)
  : result content_value :=
  match content with
  | Null =>
      if existsSync w address then
        let! text := readFileSync w address in
        Return (Text (String_trim rt text))
      else Return Null
  | _ => Return content
  end.

(** [None] is the [undefined] the store answers when nothing resolves. *)
Definition fetch (inPath : string) (w : World) (address : string) : result (option value) :=
  let! url := URL_parse rt address in
  let! content := fetch_remote w address url in
  let! content := fetch_relative inPath w address content in
  let! content := fetch_literal w address content in
  match content with
  | Null => Return None
  | _ =>
      let! text := appendDeprecatedDescription (content_text content) in
      let! schema := parseJSON rt text address in
      Return (Some schema)
  end.

(** ** [generate] *)

Definition header : string :=
  LF ++ "// THIS FILE IS AUTOMATICALLY GENERATED. TO UPDATE THIS FILE YOU NEED TO CHANGE THE"
     ++ LF ++ "// CORRESPONDING JSON SCHEMA FILE, THEN RUN devkit-admin build (or bazel build ...)."
     ++ LF ++ LF.

Definition footer : string := "".

(** The generator run against a store: every [Resolve] is answered by the
    store's [fetch]. *)
Fixpoint run (store : string -> result (option value)) (g : generator value)
  : result (list string) :=
  match g with
  | Emit lines => Return lines
  | Abort e => Throw e
  | Resolve address k => run store (k (store address))
  end.

Definition generate (w : World) (inPath : string) : result string :=
  let! content := readFileSync w inPath in
  let! schema := appendDeprecatedDescription content in
  let! lines := run (fetch inPath w) (quicktype rt schema) in
  Return (header ++ String.concat LF lines ++ footer).

(** ** [main] and the program *)

(** How an [async] body that may call [process.exit] ends. *)
Inductive ending : Type :=
| Fulfilled (w : World)
| Rejected (e : error) (w : World)
| Exited (status : Z) (w : World).

Definition main (inPath outPath : string) (w : World) : ending :=
  match generate w inPath with
  | Throw e => Rejected e w
  | Return content =>
      if String.eqb outPath "-" then Exited 0 (console_log content w)
      else
        let buildWorkspaceDirectory :=
          match BUILD_WORKSPACE_DIRECTORY w with
          | Some d => if String.eqb d "" then "." else d
          | None => "."
          end in
        let outPath := path_resolve rt buildWorkspaceDirectory outPath in
        match writeFileSync outPath content w with
        | Return w' => Fulfilled w'
        | Throw e => Rejected e w
        end
  end.

(** The [require.main === module] block on [argv = process.argv.slice(2)],
    run to its own end: the exit status and the world the process leaves.
    Node ends a process earlier, with status 1, when a promise without
    handler rejects, as the promise of a body that [fetch] leaves without
    [await] may do while the run is going on; that ending is not part of
    this function. *)
Definition program (argv : list string) (w : World) : Z * World :=
  if (length argv <? 2)%nat || (3 <? length argv)%nat then
    (1%Z, console_error (Line "Must include 2 or 3 arguments.") w)
  else
    match main (nth 0 argv "") (nth 1 argv "") w with
    | Fulfilled w' => (0%Z, w')
    | Rejected e w' =>
        (127%Z, console_error (Failure e) (console_error (Line "An error happened:") w'))
    | Exited status w' => (status, w')
    end.

(** ** Vocabulary of the statements *)

(** The entry [content.properties[key]] of a schema document whose
    [properties] is an object. *)
Definition entry (content : value) (key : string) : option value :=
  match get content "properties" with
  | Some props => get props key
  | None => None
  end.

(** The [description] of that entry. *)
Definition description (content : value) (key : string) : option value :=
  match entry content key with
  | Some e => get e "description"
  | None => None
  end.

(** The property names under [properties]. *)
Definition property_keys (content : value) : list string :=
  match get content "properties" with
  | Some (JObject props) => keys props
  | _ => []
  end.

(** An entry that is an object whose [description], when present, is a
    text. *)
Definition property_definition (e : value) : bool :=
  match e with
  | JObject members =>
      match assoc_get "description" members with
      | None => true
      | Some (JString _) => true
      | Some _ => false
      end
  | _ => false
  end.

(** A document that is an object whose [properties], when present, is an
    object of such entries. *)
Definition schema_document (content : value) : bool :=
  match content with
  | JObject members =>
      match assoc_get "properties" members with
      | None => true
      | Some (JObject props) => forallb (fun member => property_definition (snd member)) props
      | Some _ => false
      end
  | _ => false
  end.

(** The loop seen member by member. *)
Definition step (member : string * value) : result (string * value) :=
  let! e := loop_body (snd member) in
  Return (fst member, e).

(** [asks store g address k]: answered by [store], the generator [g] comes
    to ask for [address], and goes on as [k] with the answer. *)
Inductive asks (store : string -> result (option value))
  : generator value -> string -> (result (option value) -> generator value) -> Prop :=
| asks_now : forall address k, asks store (Resolve address k) address k
| asks_later : forall first k' address k,
    asks store (k' (store first)) address k ->
    asks store (Resolve first k') address k.

(** The member names of a document, in order. *)
Definition member_names (content : value) : list string :=
  match content with
  | JObject members => keys members
  | _ => []
  end.

(** What [description] holds after the destructuring of an entry. *)
Definition destructured_description (e : value) : value :=
  match get e "description" with
  | None => JString ""
  | Some d => d
  end.

(** A value that is, or holds through arrays, an object with an own
    [toString] member. *)
Fixpoint hides_toString (v : value) : bool :=
  match v with
  | JArray items => existsb hides_toString items
  | JObject members =>
      match assoc_get "toString" members with
      | Some _ => true
      | None => false
      end
  | _ => false
  end.

(** An entry that is [null], or whose annotation is truthy while its
    description hides [toString]. *)
Definition unprocessable (e : value) : bool :=
  match e with
  | JNull => true
  | _ => ToBoolean (get e "x-deprecated") && hides_toString (destructured_description e)
  end.

(** The request for [address] brings no response: the address has no host,
    or the request is rejected. *)
Definition unanswered (w : World) (address : string) (url : Url) : Prop :=
  has_hostname url = false \/ exists e, network w address = FetchRejected e.

End Runner.

(** * A sample platform

    A small platform on which the runner can be executed: integers for
    numbers, a JSON codec for ASCII texts without [\u] escapes, fractions or
    exponents, and POSIX-like paths without normalisation of [..]. *)
Module Sample.

Definition dquote : ascii := ascii_of_nat 34.
Definition backslash : ascii := ascii_of_nat 92.

Definition is_space (c : ascii) : bool :=
  match nat_of_ascii c with
  | 9 | 10 | 13 | 32 => true
  | _ => false
  end.

Fixpoint skip (s : string) : string :=
  match s with
  | String c rest => if is_space c then skip rest else s
  | EmptyString => s
  end.

Fixpoint reverse (s acc : string) : string :=
  match s with
  | EmptyString => acc
  | String c rest => reverse rest (String c acc)
  end.

Definition trim (s : string) : string :=
  reverse (skip (reverse (skip s) "")) "".

(** [after prefix s]: what follows [prefix] in [s]. *)
Fixpoint after (prefix s : string) : option string :=
  match prefix, s with
  | EmptyString, _ => Some s
  | String a p, String b rest => if Ascii.eqb a b then after p rest else None
  | String _ _, EmptyString => None
  end.

Definition digit (c : ascii) : option Z :=
  let n := nat_of_ascii c in
  if (48 <=? n)%nat && (n <=? 57)%nat then Some (Z.of_nat (n - 48)) else None.

Fixpoint read_digits (s : string) (acc : Z) : Z * string :=
  match s with
  | String c rest =>
      match digit c with
      | Some d => read_digits rest (10 * acc + d)%Z
      | None => (acc, s)
      end
  | EmptyString => (acc, s)
  end.

Definition read_unsigned (s : string) : option (Z * string) :=
  match s with
  | String c _ =>
      match digit c with
      | Some _ => Some (read_digits s 0%Z)
      | None => None
      end
  | EmptyString => None
  end.

Definition read_number (s : string) : option (Z * string) :=
  match s with
  | String "-" rest =>
      match read_unsigned rest with
      | Some (n, rest') => Some ((- n)%Z, rest')
      | None => None
      end
  | _ => read_unsigned s
  end.

Definition unescape (c : ascii) : option ascii :=
  match nat_of_ascii c with
  | 34 | 92 | 47 => Some c
  | 110 => Some (ascii_of_nat 10)
  | 116 => Some (ascii_of_nat 9)
  | 114 => Some (ascii_of_nat 13)
  | 98 => Some (ascii_of_nat 8)
  | 102 => Some (ascii_of_nat 12)
  | _ => None
  end.

(** The body of a string literal, after its opening quote. *)
Fixpoint read_string (s : string) : option (string * string) :=
  match s with
  | EmptyString => None
  | String c rest =>
      if Ascii.eqb c dquote then Some (EmptyString, rest)
      else if Ascii.eqb c backslash then
        match rest with
        | String e rest' =>
            match unescape e, read_string rest' with
            | Some x, Some (text, tail) => Some (String x text, tail)
            | _, _ => None
            end
        | EmptyString => None
        end
      else if (nat_of_ascii c <? 32)%nat then None
      else
        match read_string rest with
        | Some (text, tail) => Some (String c text, tail)
        | None => None
        end
  end.

(** The codec, whatever the numbers: [read_num] reads a number at the head
    of a text, [show_num] writes one. *)
Section Codec.

Context {N : Type} (read_num : string -> option (N * string)) (show_num : N -> string).

Section Reader.

Variable read : string -> option (json N * string).

(** The elements of an array after the first, up to the closing bracket. *)
Fixpoint read_elements (n : nat) (s : string) : option (list (json N) * string) :=
  match n with
  | O => None
  | S n' =>
      match skip s with
      | String "]" rest => Some ([], rest)
      | String "," rest =>
          match read rest with
          | Some (v, rest') =>
              match read_elements n' rest' with
              | Some (vs, tail) => Some (v :: vs, tail)
              | None => None
              end
          | None => None
          end
      | _ => None
      end
  end.

Definition read_member (s : string) : option (string * json N * string) :=
  match skip s with
  | String c rest =>
      if Ascii.eqb c dquote then
        match read_string rest with
        | Some (key, rest') =>
            match skip rest' with
            | String ":" rest'' =>
                match read rest'' with
                | Some (v, tail) => Some (key, v, tail)
                | None => None
                end
            | _ => None
            end
        | None => None
        end
      else None
  | EmptyString => None
  end.

(** The members of an object after the first; a repeated key keeps its
    place and takes the later value. *)
Fixpoint read_members (n : nat) (acc : list (string * json N)) (s : string)
  : option (list (string * json N) * string) :=
  match n with
  | O => None
  | S n' =>
      match skip s with
      | String "}" rest => Some (acc, rest)
      | String "," rest =>
          match read_member rest with
          | Some (key, v, rest') => read_members n' (assoc_set key v acc) rest'
          | None => None
          end
      | _ => None
      end
  end.

End Reader.

Fixpoint read_value (fuel : nat) (s : string) : option (json N * string) :=
  match fuel with
  | O => None
  | S fuel' =>
      match skip s with
      | EmptyString => None
      | String c rest as t =>
          if Ascii.eqb c dquote then
            match read_string rest with
            | Some (text, tail) => Some (JString text, tail)
            | None => None
            end
          else
            match c with
            | "n"%char =>
                match after "null" t with Some tail => Some (JNull, tail) | None => None end
            | "t"%char =>
                match after "true" t with Some tail => Some (JBool true, tail) | None => None end
            | "f"%char =>
                match after "false" t with Some tail => Some (JBool false, tail) | None => None end
            | "["%char =>
                match skip rest with
                | String "]" tail => Some (JArray [], tail)
                | _ =>
                    match read_value fuel' rest with
                    | Some (v, rest') =>
                        match read_elements (read_value fuel') (String.length rest') rest' with
                        | Some (vs, tail) => Some (JArray (v :: vs), tail)
                        | None => None
                        end
                    | None => None
                    end
                end
            | "{"%char =>
                match skip rest with
                | String "}" tail => Some (JObject [], tail)
                | _ =>
                    match read_member (read_value fuel') rest with
                    | Some (key, v, rest') =>
                        match read_members (read_value fuel') (String.length rest')
                                [(key, v)] rest' with
                        | Some (members, tail) => Some (JObject members, tail)
                        | None => None
                        end
                    | None => None
                    end
                end
            | _ =>
                match read_num t with
                | Some (n, tail) => Some (JNumber n, tail)
                | None => None
                end
            end
      end
  end.

Definition parse_with (s : string) : option (json N) :=
  match read_value (String.length s) s with
  | Some (v, rest) =>
      match skip rest with
      | EmptyString => Some v
      | _ => None
      end
  | None => None
  end.

Definition escape (c : ascii) : string :=
  match nat_of_ascii c with
  | 34 | 92 => String backslash (String c EmptyString)
  | 10 => String backslash "n"
  | 9 => String backslash "t"
  | 13 => String backslash "r"
  | 8 => String backslash "b"
  | 12 => String backslash "f"
  | _ => String c EmptyString
  end.

Fixpoint quote_body (s : string) : string :=
  match s with
  | EmptyString => String dquote EmptyString
  | String c rest => escape c ++ quote_body rest
  end.

Definition quote (s : string) : string := String dquote (quote_body s).

Fixpoint decimal (fuel : nat) (n : Z) (acc : string) : string :=
  match fuel with
  | O => acc
  | S fuel' =>
      let acc' := String (ascii_of_nat (48 + Z.to_nat (n mod 10))) acc in
      if (n <? 10)%Z then acc' else decimal fuel' (n / 10)%Z acc'
  end.

Definition show_Z (n : Z) : string :=
  if (n <? 0)%Z then "-" ++ decimal (Z.to_nat (- n)) (- n)%Z ""
  else decimal (S (Z.to_nat n)) n "".

Fixpoint stringify_with (v : json N) : string :=
  match v with
  | JNull => "null"
  | JBool true => "true"
  | JBool false => "false"
  | JNumber n => show_num n
  | JString s => quote s
  | JArray items =>
      "[" ++
      (fix elements (l : list (json N)) : string :=
         match l with
         | [] => "]"
         | [x] => stringify_with x ++ "]"
         | x :: rest => stringify_with x ++ "," ++ elements rest
         end) items
  | JObject members =>
      "{" ++
      (fix entries (l : list (string * json N)) : string :=
         match l with
         | [] => "}"
         | [(k, x)] => quote k ++ ":" ++ stringify_with x ++ "}"
         | (k, x) :: rest => quote k ++ ":" ++ stringify_with x ++ "," ++ entries rest
         end) members
  end.

End Codec.

Definition parse : string -> option (json Z) := parse_with read_number.

Definition stringify : json Z -> string := stringify_with show_Z.

(** [split sep s]: the texts before and after the first [sep] in [s]. *)
Fixpoint split (sep s : string) : option (string * string) :=
  match after sep s with
  | Some rest => Some (EmptyString, rest)
  | None =>
      match s with
      | EmptyString => None
      | String c s' =>
          match split sep s' with
          | Some (before, rest) => Some (String c before, rest)
          | None => None
          end
      end
  end.

(** [scheme://host/path], or a bare path. *)
Definition parse_url (address : string) : Url :=
  match split "://" address with
  | Some (scheme, rest) =>
      match split "/" rest with
      | Some (host, tail) =>
          {| protocol := Some (scheme ++ ":");
             hostname := Some host;
             path := Some ("/" ++ tail) |}
      | None =>
          {| protocol := Some (scheme ++ ":"); hostname := Some rest; path := None |}
      end
  | None => {| protocol := None; hostname := None; path := Some address |}
  end.

Definition is_absolute (file : string) : bool :=
  match file with
  | String "/" _ => true
  | _ => false
  end.

Definition join2 (a b : string) : string :=
  if is_absolute b then a ++ b else a ++ "/" ++ b.

Definition join (segments : list string) : string :=
  match segments with
  | [] => "."
  | first :: others => fold_left join2 others first
  end.

(** The text before the last [/], when there is one. *)
Fixpoint before_last_slash (s : string) : option string :=
  match s with
  | EmptyString => None
  | String c rest =>
      match before_last_slash rest with
      | Some d => Some (String c d)
      | None => if Ascii.eqb c "/" then Some EmptyString else None
      end
  end.

Definition parent (file : string) : string :=
  match before_last_slash file with
  | Some EmptyString => "/"
  | Some d => d
  | None => "."
  end.

Definition resolve (base file : string) : string :=
  if is_absolute file then file else join2 base file.

Definition interface : list string :=
  ["export interface Schema {"; "    [property: string]: any;"; "}"].

(** A generator that follows a top-level [$ref] and needs its answer. *)
Definition generator_of (schema : string) : generator (json Z) :=
  match parse schema with
  | Some (JObject members) =>
      match assoc_get "$ref" members with
      | Some (JString address) =>
          Resolve address (fun answer =>
            match answer with
            | Return (Some _) => Emit interface
            | _ => Abort (LibraryError "SchemaFetchError")
            end)
      | _ => Emit interface
      end
  | _ => Abort (LibraryError "not a schema")
  end.

Definition platform : Runtime :=
  {| number := Z;
     Number_toString := show_Z;
     Number_toBoolean := fun n => negb (n =? 0)%Z;
     JSON_parse := parse;
     JSON_stringify := stringify;
     String_trim := trim;
     URL_parse := fun address => Return (parse_url address);
     path_join := join;
     path_dirname := parent;
     path_isAbsolute := is_absolute;
     path_resolve := resolve;
     dirname := "/repo/tools";
     parseJSON := fun text _ =>
       match parse text with
       | Some v => Return v
       | None => Throw (LibraryError "MiscJSONParseError")
       end;
     quicktype := generator_of |}.

(** A machine with the given files and network, nothing printed yet. *)
Definition machine (disk : list (string * node)) (net : string -> fetch_outcome) : World :=
  {| files := fun file => assoc_get file disk;
     denied := fun _ => None;
     network := net;
     BUILD_WORKSPACE_DIRECTORY := None;
     stdout := [];
     stderr := [] |}.

Definition offline (address : string) : fetch_outcome :=
  FetchRejected (LibraryError "fetch failed").

(** A server that answers every request with [body]. *)
Definition serving (body : result string) (address : string) : fetch_outcome :=
  FetchResolved {| body_text := body |}.

(** Sample documents, written as values and serialised. *)
Definition plain_schema : json Z :=
  JObject [("type", JString "object"); ("title", JString "Options")].

Definition annotated_schema : json Z :=
  JObject
    [("type", JString "object");
     ("properties",
      JObject
        [("old", JObject [("type", JString "string"); ("x-deprecated", JBool true)]);
         ("port", JObject [("type", JString "number");
                           ("description", JString "Port to listen on.")]);
         ("host", JObject [("description", JString "Host name.");
                           ("x-deprecated", JString "use X instead")]);
         ("off", JObject [("description", JString "Kept."); ("x-deprecated", JBool false)]);
         ("zero", JObject [("x-deprecated", JNumber 0%Z)]);
         ("empty", JObject [("x-deprecated", JString "")]);
         ("none", JObject [("description", JString "Kept too."); ("x-deprecated", JNull)])])].

Definition referring_schema (address : string) : json Z :=
  JObject [("$ref", JString address)].

(** A machine whose input file holds [document], run from a directory. *)
Definition workspace (document : json Z) (others : list (string * node))
    (net : string -> fetch_outcome) : World :=
  machine (("/work/in.json", File (stringify document)) :: others
             ++ [("/work", Directory); (".", Directory)]) net.

Definition bundled : string := "ng-cli://config/schema.json".

Definition remote : string := "http://example.com/schema.json".

(** The annotated document as a text. *)
Definition document : string := stringify annotated_schema.

(** A machine on which [bundled] is not bundled, though it exists both next
    to the input file and as a file name of its own. *)
Definition stray : World :=
  workspace (referring_schema bundled)
    [("/work/ng-cli://config/schema.json", File "{}"); (bundled, File "{}")] offline.

(** A machine ready to generate from the annotated document. *)
Definition ready : World := workspace annotated_schema [] offline.

(** A machine without files or network. *)
Definition bare : World := machine [] offline.

(** Two servers: one answers with an empty schema, one drops the body. *)
Definition answering : World := machine [] (serving (Return "{}")).

Definition dropping : World := machine [] (serving (Throw (LibraryError "terminated"))).

(** What [generator_of] does with the answer to its question. *)
Definition needs_answer (answer : result (option (json Z))) : generator (json Z) :=
  match answer with
  | Return (Some _) => Emit interface
  | _ => Abort (LibraryError "SchemaFetchError")
  end.

(** The annotated document after one pass and after two. *)
Definition annotated_once : json Z :=
  match annotate platform annotated_schema with
  | Return content => content
  | Throw _ => JNull
  end.

Definition annotated_twice : json Z :=
  match annotate platform annotated_once with
  | Return content => content
  | Throw _ => JNull
  end.

(** A number as description, a number as annotation. *)
Definition coerced_schema : json Z :=
  JObject
    [("properties",
      JObject [("n", JObject [("description", JNumber 5%Z); ("x-deprecated", JNumber 1%Z)])])].

Definition coerced_once : json Z :=
  match annotate platform coerced_schema with
  | Return content => content
  | Throw _ => JNull
  end.

(** A [null] entry. *)
Definition broken_schema : json Z :=
  JObject [("properties", JObject [("a", JObject []); ("b", JNull)])].

(** A text and an array as [properties]. *)
Definition scalar_schema : json Z :=
  JObject [("title", JString "t"); ("properties", JString "none")].

Definition array_schema : json Z :=
  JObject [("properties", JArray [JBool true; JObject [("x-deprecated", JBool true)]])].

Definition array_once : json Z :=
  match annotate platform array_schema with
  | Return content => content
  | Throw _ => JNull
  end.

(** A machine with a file next to the input and a file of the same bare
    name, a directory next to the input, and an absolute file. *)
Definition shelves : World :=
  workspace plain_schema
    [("/work/parts/a.json", File "{}"); ("parts/a.json", File "[]");
     ("/work/parts", Directory); ("/schemas/b.json", File " [] ");
     ("./out", Directory)] offline.

(** A machine like [ready] with the workspace root set. *)
Definition rooted : World :=
  {| files := files ready;
     denied := fun _ => None;
     network := network ready;
     BUILD_WORKSPACE_DIRECTORY := Some "/work";
     stdout := [];
     stderr := [] |}.

(** The bundled schema present, with and without a network. *)
Definition packaged (net : string -> fetch_outcome) : World :=
  machine [("/repo/tools/../packages/angular/cli/config/schema.json", File " {} ")] net.

(** ** Numbers that overflow

    A second platform, whose numbers are the integers a double holds and the
    two infinities: a literal is an integer with an optional non-negative
    exponent, a value from [2^1024 - 2^970] on rounds to an infinity, and
    [JSON.stringify] writes an infinity as [null].  The rounding of the
    finite integers beyond [2^53] is left out. *)

Inductive double : Type :=
| Finite (z : Z)
| Infinite (negative : bool).

Definition overflow : Z := (2 ^ 1024 - 2 ^ 970)%Z.

Definition to_double (z : Z) : double :=
  if (overflow <=? z)%Z then Infinite false
  else if (z <=? - overflow)%Z then Infinite true
  else Finite z.

Definition read_exponent (s : string) : option (Z * string) :=
  match s with
  | String "+" rest => read_unsigned rest
  | _ => read_unsigned s
  end.

Definition read_double (s : string) : option (double * string) :=
  match read_number s with
  | Some (mantissa, rest) =>
      match rest with
      | String c after_e =>
          if Ascii.eqb c "e" || Ascii.eqb c "E" then
            match read_exponent after_e with
            | Some (exponent, tail) => Some (to_double (mantissa * 10 ^ exponent), tail)
            | None => None
            end
          else Some (to_double mantissa, rest)
      | EmptyString => Some (to_double mantissa, rest)
      end
  | None => None
  end.

(** Number::toString, and the number as [JSON.stringify] writes it. *)
Definition show_double (d : double) : string :=
  match d with
  | Finite z => show_Z z
  | Infinite false => "Infinity"
  | Infinite true => "-Infinity"
  end.

Definition write_double (d : double) : string :=
  match d with
  | Finite z => show_Z z
  | Infinite _ => "null"
  end.

Definition ieee : Runtime :=
  {| number := double;
     Number_toString := show_double;
     Number_toBoolean := fun d =>
       match d with
       | Finite z => negb (z =? 0)%Z
       | Infinite _ => true
       end;
     JSON_parse := parse_with read_double;
     JSON_stringify := stringify_with write_double;
     String_trim := trim;
     URL_parse := fun address => Return (parse_url address);
     path_join := join;
     path_dirname := parent;
     path_isAbsolute := is_absolute;
     path_resolve := resolve;
     dirname := "/repo/tools";
     parseJSON := fun text _ =>
       match parse_with read_double text with
       | Some v => Return v
       | None => Throw (LibraryError "MiscJSONParseError")
       end;
     quicktype := fun _ => Emit interface |}.

(** A schema whose [maximum] is the literal [1e999], what it parses to, and
    what is written back. *)
Definition overflowing : string := String "{" (quote "maximum" ++ ":1e999}").

Definition overflowed : json double := JObject [("maximum", JNumber (Infinite false))].

Definition written_back : json double := JObject [("maximum", JNull)].

End Sample.

(** * Properties *)

Section AssocLists.

Context {A : Type}.
Implicit Types (m : list (string * A)) (k : string) (v : A).

Lemma assoc_get_set_same k v m : assoc_get k (assoc_set k v m) = Some v.
Proof.
  induction m as [|[k' x] m IH]; simpl.
  - now rewrite String.eqb_refl.
  - destruct (String.eqb k k') eqn:E; simpl; rewrite E; auto.
Qed.

Lemma assoc_get_set_other k k' v m :
  k <> k' -> assoc_get k' (assoc_set k v m) = assoc_get k' m.
Proof.
  intros D. induction m as [|[j x] m IH]; simpl.
  - destruct (String.eqb k' k) eqn:E; auto.
    apply String.eqb_eq in E. congruence.
  - destruct (String.eqb k j) eqn:E; simpl.
    + apply String.eqb_eq in E. subst j.
      destruct (String.eqb k' k) eqn:E'; auto.
      apply String.eqb_eq in E'. congruence.
    + now rewrite IH.
Qed.

Lemma assoc_get_app_fresh k done m :
  ~ In k (keys done) -> assoc_get k (done ++ m) = assoc_get k m.
Proof.
  induction done as [|[j x] done IH]; simpl; intros N; auto.
  destruct (String.eqb k j) eqn:E.
  - apply String.eqb_eq in E. subst. tauto.
  - apply IH. tauto.
Qed.

Lemma assoc_set_app_fresh k v x done m :
  ~ In k (keys done) ->
  assoc_set k v (done ++ (k, x) :: m) = (done ++ (k, v) :: m)%list.
Proof.
  induction done as [|[j y] done IH]; simpl; intros N.
  - now rewrite String.eqb_refl.
  - destruct (String.eqb k j) eqn:E.
    + apply String.eqb_eq in E. subst. tauto.
    + f_equal. apply IH. tauto.
Qed.

Lemma distinct_NoDup (ks : list string) : distinct ks = true -> NoDup ks.
Proof.
  induction ks as [|k ks IH]; cbn [distinct]; intros D; constructor.
  - apply andb_true_iff in D. destruct D as [D _].
    apply negb_true_iff in D. intros I.
    assert (E : existsb (String.eqb k) ks = true).
    { apply existsb_exists. exists k. split; [exact I|apply String.eqb_refl]. }
    congruence.
  - apply IH. apply andb_true_iff in D. tauto.
Qed.

End AssocLists.

Section Preprocessor.

Context (rt : Runtime).

#[local] Abbreviation value := (json (number rt)).

Implicit Types (content e : value) (key : string).

(** *** One iteration *)

Lemma loop_body_falsy e e' :
  ToBoolean rt (get rt e "x-deprecated") = false ->
  loop_body rt e = Return e' -> e' = e.
Proof.
  unfold loop_body. intros F. rewrite F. simpl.
  destruct e; intros H; inversion H; reflexivity.
Qed.

Lemma loop_body_truthy members text :
  ToBoolean rt (assoc_get "x-deprecated" members) = true ->
  ToString rt (match assoc_get "description" members with
               | None => JString ""
               | Some d => d
               end) = Return text ->
  loop_body rt (JObject members) =
  Return (JObject (assoc_set "description"
                     (JString (text ++ marker rt (assoc_get "x-deprecated" members)))
                     members)).
Proof.
  intros T S. unfold loop_body. cbn [get]. rewrite T. cbn [negb].
  rewrite S. reflexivity.
Qed.

Lemma loop_body_definition e :
  property_definition rt e = true -> exists e', loop_body rt e = Return e'.
Proof.
  destruct e as [| | | | |members]; try discriminate. intros P.
  destruct (ToBoolean rt (assoc_get "x-deprecated" members)) eqn:T.
  - cbn [property_definition] in P.
    destruct (assoc_get "description" members) as [d|] eqn:D.
    + destruct d; try discriminate.
      eexists. apply loop_body_truthy; [exact T|]. rewrite D. reflexivity.
    + eexists. apply loop_body_truthy; [exact T|]. rewrite D. reflexivity.
  - exists (JObject members). unfold loop_body. cbn [get]. rewrite T. reflexivity.
Qed.

(** *** The loop *)

Lemma for_in_step (todo done : list (string * value)) :
  NoDup (keys (done ++ todo)) ->
  for_in rt (keys todo) (done ++ todo) =
  let! todo' := mapM (step rt) todo in Return (done ++ todo')%list.
Proof.
  revert done. induction todo as [|[k e] todo IH]; intros done N.
  - reflexivity.
  - assert (F : ~ In k (keys done)).
    { unfold keys in N. rewrite map_app in N. apply NoDup_remove_2 in N.
      intros I. apply N. apply in_or_app. now left. }
    cbn [keys map fst for_in]. rewrite (assoc_get_app_fresh _ _ _ F).
    cbn [assoc_get]. rewrite String.eqb_refl.
    cbn [mapM]. change (step rt (k, e)) with (let! e' := loop_body rt e in Return (k, e')).
    destruct (loop_body rt e) as [e'|err]; cbn [bind]; [|reflexivity].
    rewrite (assoc_set_app_fresh _ _ _ _ _ F).
    change (done ++ (k, e') :: todo)%list with (done ++ [(k, e')] ++ todo)%list.
    rewrite app_assoc. fold (keys todo). rewrite IH.
    + destruct (mapM (step rt) todo); cbn [bind]; [|reflexivity].
      now rewrite <- app_assoc.
    + unfold keys in *. rewrite <- app_assoc. rewrite map_app in *. exact N.
Qed.

Lemma for_in_mapM (props : list (string * value)) :
  NoDup (keys props) -> for_in rt (keys props) props = mapM (step rt) props.
Proof.
  intros N. change props with ([] ++ props)%list at 2.
  rewrite (for_in_step props [] N).
  destruct (mapM (step rt) props); reflexivity.
Qed.

Lemma mapM_step_get (props props' : list (string * value)) key e :
  mapM (step rt) props = Return props' ->
  assoc_get key props = Some e ->
  exists e', loop_body rt e = Return e' /\ assoc_get key props' = Some e'.
Proof.
  revert props'. induction props as [|[k x] props IH]; intros props' M G.
  - discriminate.
  - cbn [mapM] in M.
    change (step rt (k, x)) with (let! e' := loop_body rt x in Return (k, e')) in M.
    destruct (loop_body rt x) as [x'|] eqn:B; cbn [bind] in M; [|discriminate].
    destruct (mapM (step rt) props) as [rest|] eqn:R; cbn [bind] in M; [|discriminate].
    inversion M; subst props'; clear M.
    cbn [assoc_get] in *. destruct (String.eqb key k).
    + inversion G; subst. eauto.
    + eauto.
Qed.

Lemma mapM_step_returns (props : list (string * value)) :
  forallb (fun member => property_definition rt (snd member)) props = true ->
  exists props', mapM (step rt) props = Return props'.
Proof.
  induction props as [|[k x] props IH]; cbn [forallb snd]; intros F.
  - eexists. reflexivity.
  - apply andb_true_iff in F. destruct F as [P F].
    destruct (loop_body_definition _ P) as [x' B].
    destruct (IH F) as [rest R].
    exists ((k, x') :: rest). cbn [mapM].
    change (step rt (k, x)) with (let! e' := loop_body rt x in Return (k, e')).
    rewrite B. cbn [bind]. rewrite R. reflexivity.
Qed.

(** *** The whole pass on a parsed document *)

Lemma annotate_entry content content' key e :
  NoDup (property_keys rt content) ->
  annotate rt content = Return content' ->
  entry rt content key = Some e ->
  exists e', loop_body rt e = Return e' /\ entry rt content' key = Some e'.
Proof.
  intros N H E. unfold entry in E.
  destruct content as [| | | | |members]; try discriminate.
  cbn [get] in E. destruct (assoc_get "properties" members) as [props|] eqn:P; [|discriminate].
  destruct props as [| | | | |pm]; try discriminate. cbn [get] in E.
  unfold property_keys in N. cbn [get] in N. rewrite P in N.
  unfold annotate in H. cbn [get] in H. rewrite P in H. cbn [loop] in H.
  rewrite (for_in_mapM _ N) in H.
  destruct (mapM (step rt) pm) as [pm'|] eqn:M; cbn [bind] in H; [|discriminate].
  inversion H; subst content'; clear H.
  destruct (mapM_step_get _ _ _ _ M E) as [e' [B G]].
  exists e'. split; [exact B|].
  unfold entry. cbn [set get]. rewrite assoc_get_set_same. exact G.
Qed.

Lemma annotate_returns content :
  schema_document rt content = true ->
  NoDup (property_keys rt content) ->
  exists content', annotate rt content = Return content'.
Proof.
  destruct content as [| | | | |members]; try discriminate. intros S N.
  unfold annotate. cbn [get]. cbn [schema_document] in S.
  unfold property_keys in N. cbn [get] in N.
  destruct (assoc_get "properties" members) as [props|].
  - destruct props as [| | | | |pm]; try discriminate.
    cbn [loop]. rewrite (for_in_mapM _ N).
    destruct (mapM_step_returns _ S) as [pm' M]. rewrite M. cbn [bind].
    eexists. reflexivity.
  - eexists. reflexivity.
Qed.

(** Outside [properties] the document is as it was. *)
Lemma annotate_other_members content content' name :
  annotate rt content = Return content' ->
  name <> "properties" ->
  get rt content' name = get rt content name.
Proof.
  intros H D. unfold annotate in H.
  destruct content as [| | | | |members]; try discriminate;
    try (cbn in H; inversion H; reflexivity).
  destruct (loop rt (get rt (JObject members) "properties")) as [[p|]|];
    cbn [bind] in H; inversion H; [|reflexivity].
  cbn [set get]. apply assoc_get_set_other. congruence.
Qed.

(** [content.properties] on [null]. *)
Lemma annotate_null : annotate rt JNull = Throw TypeError.
Proof. reflexivity. Qed.

Lemma appendDeprecatedDescription_parsed schema content content' :
  JSON_parse rt schema = Some content ->
  annotate rt content = Return content' ->
  appendDeprecatedDescription rt schema = Return (JSON_stringify rt content').
Proof.
  intros P H. unfold appendDeprecatedDescription. rewrite P, H. reflexivity.
Qed.

(** *** The claims on the pre-processor *)

(** C1.  Let [schema] parse to a document whose [properties] has the entry
    [e] under [key].  Whenever the pre-processor returns, its output is the
    serialisation of a document in which: if [e] had [x-deprecated: true]
    and no [description], the entry's [description] is exactly the text
    "\n@deprecated"; if [e] had a non-empty text [note] as [x-deprecated]
    (such as "use X instead"), the entry's [description] is the prior
    description (the empty text when absent) followed by
    "\n@deprecated " and [note].  On a document of the data model the
    pre-processor does return. *)
Theorem C1_deprecated_description schema content key e :
  JSON_parse rt schema = Some content ->
  NoDup (property_keys rt content) ->
  entry rt content key = Some e ->
  (schema_document rt content = true ->
   exists content', annotate rt content = Return content') /\
  forall content', annotate rt content = Return content' ->
    appendDeprecatedDescription rt schema = Return (JSON_stringify rt content') /\
    (get rt e "x-deprecated" = Some (JBool true) ->
     get rt e "description" = None ->
     description rt content' key = Some (JString (LF ++ "@deprecated"))) /\
    (forall note prior,
       note <> "" ->
       get rt e "x-deprecated" = Some (JString note) ->
       (get rt e "description" = None /\ prior = "") \/
       get rt e "description" = Some (JString prior) ->
       description rt content' key =
       Some (JString (prior ++ LF ++ "@deprecated " ++ note))).
Proof.
  intros P N E. split.
  { intros S. now apply annotate_returns. }
  intros content' H. split.
  { now apply appendDeprecatedDescription_parsed with content. }
  destruct (annotate_entry _ _ _ _ N H E) as [e' [B E']].
  unfold description. rewrite E'. split.
  - intros T D. destruct e as [| | | | |members]; try discriminate.
    cbn [get] in T, D.
    rewrite (loop_body_truthy members "") in B.
    + inversion B; subst e'. cbn [get]. rewrite assoc_get_set_same.
      rewrite T. reflexivity.
    + rewrite T. reflexivity.
    + rewrite D. reflexivity.
  - intros note prior NE T D. destruct e as [| | | | |members]; try discriminate.
    cbn [get] in T, D.
    rewrite (loop_body_truthy members prior) in B.
    + inversion B; subst e'. cbn [get]. rewrite assoc_get_set_same.
      rewrite T. reflexivity.
    + rewrite T. cbn [ToBoolean]. apply negb_true_iff. now apply String.eqb_neq.
    + destruct D as [[D ->]|D]; rewrite D; reflexivity.
Qed.

(** C5.  An entry of [properties] without an [x-deprecated] member is, in
    the document the pre-processor serialises, the very same entry: its
    [description] and every other member are as before.  On a document of
    the data model the pre-processor does return. *)
Theorem C5_unannotated_entry_untouched schema content key e :
  JSON_parse rt schema = Some content ->
  NoDup (property_keys rt content) ->
  entry rt content key = Some e ->
  get rt e "x-deprecated" = None ->
  (schema_document rt content = true ->
   exists content', annotate rt content = Return content') /\
  forall content', annotate rt content = Return content' ->
    appendDeprecatedDescription rt schema = Return (JSON_stringify rt content') /\
    entry rt content' key = Some e /\
    description rt content' key = get rt e "description".
Proof.
  intros P N E A. split.
  { intros S. now apply annotate_returns. }
  intros content' H. split.
  { now apply appendDeprecatedDescription_parsed with content. }
  destruct (annotate_entry _ _ _ _ N H E) as [e' [B E']].
  assert (e' = e) as -> by (apply loop_body_falsy; [rewrite A; reflexivity | exact B]).
  unfold description. rewrite E'. auto.
Qed.

(** C9.  An entry of [properties] whose [x-deprecated] is [false], the empty
    text, a number that ToBoolean sends to false (zero) or [null] is, in the
    document the pre-processor serialises, the very same entry, as an entry
    without the annotation is: nothing is appended to its [description].
    On a document of the data model the pre-processor does return. *)
Theorem C9_falsy_annotation_ignored schema content key e deprecated :
  JSON_parse rt schema = Some content ->
  NoDup (property_keys rt content) ->
  entry rt content key = Some e ->
  get rt e "x-deprecated" = Some deprecated ->
  deprecated = JBool false \/
  deprecated = JString "" \/
  (exists n, deprecated = JNumber n /\ Number_toBoolean rt n = false) \/
  deprecated = JNull ->
  (schema_document rt content = true ->
   exists content', annotate rt content = Return content') /\
  forall content', annotate rt content = Return content' ->
    appendDeprecatedDescription rt schema = Return (JSON_stringify rt content') /\
    entry rt content' key = Some e /\
    description rt content' key = get rt e "description".
Proof.
  intros P N E A F. split.
  { intros S. now apply annotate_returns. }
  intros content' H. split.
  { now apply appendDeprecatedDescription_parsed with content. }
  destruct (annotate_entry _ _ _ _ N H E) as [e' [B E']].
  assert (e' = e) as ->.
  { apply loop_body_falsy; [|exact B]. rewrite A.
    destruct F as [F|[F|[[n [F Hn]]|F]]]; subst deprecated; auto. }
  unfold description. rewrite E'. auto.
Qed.

(** C10.  A document that is not [null] and has no [properties] member goes
    through the pre-processor unchanged: the pre-processor does not fail and
    returns the serialisation of the parsed input.  The returned text thus
    parses to what the codec reads back from that serialisation: to the
    input's parsed value when the codec round-trips it, which it does not
    do for every value. *)
Theorem C10_no_properties_identity schema content :
  JSON_parse rt schema = Some content ->
  content <> JNull ->
  get rt content "properties" = None ->
  appendDeprecatedDescription rt schema = Return (JSON_stringify rt content) /\
  (exists out, appendDeprecatedDescription rt schema = Return out /\
               JSON_parse rt out = JSON_parse rt (JSON_stringify rt content)) /\
  (JSON_parse rt (JSON_stringify rt content) = Some content ->
   exists out, appendDeprecatedDescription rt schema = Return out /\
               JSON_parse rt out = Some content).
Proof.
  intros P NN G.
  assert (H : annotate rt content = Return content).
  { unfold annotate. rewrite G. destruct content; try reflexivity. congruence. }
  pose proof (appendDeprecatedDescription_parsed _ _ _ P H) as R.
  split; [exact R|]. split; eauto.
Qed.

End Preprocessor.

Section Resolver.

Context (rt : Runtime).

#[local] Abbreviation value := (json (number rt)).

Implicit Types (w : World) (url : Url) (inPath address : string).

Lemma appendDeprecatedDescription_not_json schema :
  JSON_parse rt schema = None ->
  appendDeprecatedDescription rt schema = Throw SyntaxError.
Proof.
  intros P. unfold appendDeprecatedDescription. now rewrite P.
Qed.

(** Once the request is answered, [content] holds the promise of the body,
    and it is the promise that goes to the pre-processor. *)
Lemma fetch_resolved inPath w address url response :
  URL_parse rt address = Return url ->
  is_ng_cli url = false ->
  has_hostname url = true ->
  network w address = FetchResolved response ->
  fetch rt inPath w address =
  let! text := appendDeprecatedDescription rt "[object Promise]" in
  let! schema := parseJSON rt text address in
  Return (Some schema).
Proof.
  intros U S H F. unfold fetch, fetch_remote. rewrite U. cbn [bind].
  rewrite S, H, F. reflexivity.
Qed.

(** A request that is not answered leaves [content] at [null]. *)
Lemma fetch_rejected inPath w address url e :
  URL_parse rt address = Return url ->
  is_ng_cli url = false ->
  has_hostname url = true ->
  network w address = FetchRejected e ->
  fetch rt inPath w address =
  let! content := fetch_relative rt inPath w address Null in
  let! content := fetch_literal rt w address content in
  match content with
  | Null => Return None
  | _ =>
      let! text := appendDeprecatedDescription rt (content_text content) in
      let! schema := parseJSON rt text address in
      Return (Some schema)
  end.
Proof.
  intros U S H F. unfold fetch, fetch_remote. rewrite U. cbn [bind].
  rewrite S, H, F. reflexivity.
Qed.

Lemma run_asks_abort (store : string -> result (option value)) g address k e :
  asks rt store g address k ->
  k (store address) = Abort e ->
  run rt store g = Throw e.
Proof.
  induction 1 as [address k|first k' address k _ IH]; intros A; cbn [run].
  - rewrite A. reflexivity.
  - auto.
Qed.

(** C2.  The claim: when the request for an address with a host, outside
    the custom scheme, is answered with a JSON body, [fetch] returns the
    parsed body.  The code: [response.text()] is not awaited, so for every
    answered request, whatever the body, the pre-processor is handed the
    promise, [JSON.parse] reads the text "[object Promise]" and [fetch]
    throws. *)
Theorem C2_answered_request_throws inPath w address url response :
  URL_parse rt address = Return url ->
  is_ng_cli url = false ->
  has_hostname url = true ->
  network w address = FetchResolved response ->
  JSON_parse rt "[object Promise]" = None ->
  fetch rt inPath w address = Throw SyntaxError.
Proof.
  intros U S H F P. rewrite (fetch_resolved _ _ _ _ _ U S H F).
  now rewrite (appendDeprecatedDescription_not_json _ P).
Qed.

(** C3.  The claim: for an address with a host, outside the custom scheme,
    every failure of the request (network error, unreadable body) counts
    as no content, and [fetch] answers with absence when no file resolves
    the address either.  The code: a rejected request does so; an answered
    request does not, whatever becomes of its body, the promise of the body
    being stored without [await]: no later step runs and [fetch] throws. *)
Theorem C3_unreadable_body_throws inPath w address url :
  URL_parse rt address = Return url ->
  is_ng_cli url = false ->
  has_hostname url = true ->
  existsSync w (path_join rt [path_dirname rt inPath; address]) = false ->
  existsSync w address = false ->
  (forall e, network w address = FetchRejected e ->
     fetch rt inPath w address = Return None) /\
  (forall response,
     network w address = FetchResolved response ->
     JSON_parse rt "[object Promise]" = None ->
     fetch rt inPath w address = Throw SyntaxError).
Proof.
  intros U S H R L. split.
  - intros e F. rewrite (fetch_rejected _ _ _ _ _ U S H F).
    unfold fetch_relative, fetch_literal. rewrite R.
    destruct (path_isAbsolute rt address); cbn [negb bind]; rewrite L; reflexivity.
  - intros response F P. rewrite (fetch_resolved _ _ _ _ _ U S H F).
    now rewrite (appendDeprecatedDescription_not_json _ P).
Qed.

End Resolver.

Section Driver.

Context (rt : Runtime).

#[local] Abbreviation value := (json (number rt)).

Implicit Types (w : World) (argv : list string).

Lemma generate_steps w inPath content schema :
  readFileSync w inPath = Return content ->
  appendDeprecatedDescription rt content = Return schema ->
  generate rt w inPath =
  let! lines := run rt (fetch rt inPath w) (quicktype rt schema) in
  Return (header ++ String.concat LF lines ++ footer).
Proof.
  intros R A. unfold generate. rewrite R. cbn [bind]. rewrite A. reflexivity.
Qed.

Lemma arity_ok argv :
  (2 <= length argv <= 3)%nat ->
  (length argv <? 2)%nat || (3 <? length argv)%nat = false.
Proof.
  intros [L U]. apply orb_false_iff. split; apply Nat.ltb_ge; lia.
Qed.

(** What the process does once [generate] has thrown. *)
Lemma program_generation_failed argv w e :
  (2 <= length argv <= 3)%nat ->
  generate rt w (nth 0 argv "") = Throw e ->
  program rt argv w =
  (127%Z, console_error (Failure e) (console_error (Line "An error happened:") w)).
Proof.
  intros A G. unfold program, main. rewrite (arity_ok _ A), G. reflexivity.
Qed.

(** A run whose generator asks for an address at which [fetch] throws, and
    aborts on that answer, ends with status 127. *)
Lemma program_resolution_failed argv w address err content schema k e :
  (2 <= length argv <= 3)%nat ->
  fetch rt (nth 0 argv "") w address = Throw err ->
  readFileSync w (nth 0 argv "") = Return content ->
  appendDeprecatedDescription rt content = Return schema ->
  asks rt (fetch rt (nth 0 argv "") w) (quicktype rt schema) address k ->
  k (Throw err) = Abort e ->
  generate rt w (nth 0 argv "") = Throw e /\
  program rt argv w =
  (127%Z, console_error (Failure e) (console_error (Line "An error happened:") w)).
Proof.
  intros A T R D Q K.
  assert (G : generate rt w (nth 0 argv "") = Throw e).
  { rewrite (generate_steps _ _ _ _ R D).
    rewrite (run_asks_abort rt _ _ _ _ e Q); [reflexivity|].
    rewrite T. exact K. }
  split; [exact G|]. now apply program_generation_failed.
Qed.

(** C4.  For an address of the custom scheme, [fetch] never goes on to the
    later steps.  With a host and a path it reads the file at the join of
    the runner's directory, [../packages/angular/cli], the host and the
    path: the trimmed text is pre-processed and parsed; when no such file
    exists the read error is what [fetch] throws, whatever else the machine
    holds.  Then, in a run whose generator asks for that address and aborts
    on the thrown answer, [generate] throws and the process prints the
    error and exits with status 127. *)
Theorem C4_custom_scheme_missing_file argv w address url :
  (2 <= length argv <= 3)%nat ->
  URL_parse rt address = Return url ->
  is_ng_cli url = true ->
  let inPath := nth 0 argv "" in
  (hostname url = None \/ path url = None ->
   fetch rt inPath w address = Throw TypeError) /\
  forall h p, hostname url = Some h -> path url = Some p ->
    let filePath := path_join rt [dirname rt; "../packages/angular/cli"; h; p] in
    (forall text, files w filePath = Some (File text) ->
       fetch rt inPath w address =
       let! processed := appendDeprecatedDescription rt (String_trim rt text) in
       let! schema := parseJSON rt processed address in
       Return (Some schema)) /\
    (files w filePath = Some Directory ->
       fetch rt inPath w address = Throw (EISDIR filePath)) /\
    (files w filePath = None ->
       fetch rt inPath w address = Throw (ENOENT filePath) /\
       forall content schema k e,
         readFileSync w inPath = Return content ->
         appendDeprecatedDescription rt content = Return schema ->
         asks rt (fetch rt inPath w) (quicktype rt schema) address k ->
         k (Throw (ENOENT filePath)) = Abort e ->
         generate rt w inPath = Throw e /\
         program rt argv w =
         (127%Z, console_error (Failure e) (console_error (Line "An error happened:") w))).
Proof.
  intros A U S inPath. split.
  - intros M. unfold fetch, fetch_remote. rewrite U. cbn [bind]. rewrite S.
    destruct M as [M|M]; rewrite M; [reflexivity|].
    destruct (hostname url); reflexivity.
  - intros h p H P filePath.
    assert (F : fetch rt inPath w address =
                let! content :=
                  (let! text := readFileSync w filePath in
                   Return (Text (String_trim rt text))) in
                let! content := fetch_relative rt inPath w address content in
                let! content := fetch_literal rt w address content in
                match content with
                | Null => Return None
                | _ =>
                    let! text := appendDeprecatedDescription rt (content_text content) in
                    let! schema := parseJSON rt text address in
                    Return (Some schema)
                end).
    { unfold fetch, fetch_remote. rewrite U. cbn [bind]. rewrite S, H, P. reflexivity. }
    split; [|split].
    + intros text E. rewrite F. unfold readFileSync. rewrite E. reflexivity.
    + intros E. rewrite F. unfold readFileSync. rewrite E. reflexivity.
    + intros E.
      assert (T : fetch rt inPath w address = Throw (ENOENT filePath)).
      { rewrite F. unfold readFileSync. rewrite E. reflexivity. }
      split; [exact T|].
      intros content schema k e R D Q K.
      exact (program_resolution_failed _ _ _ _ _ _ _ _ A T R D Q K).
Qed.

(** C6.  With fewer than two or more than three arguments the program
    prints "Must include 2 or 3 arguments." on the error stream and exits
    with status 1.  With two or three arguments and [-] as output path the
    program leaves every file as it was, and, [generate] having returned a
    text, prints that text on standard output and exits with status 0. *)
Theorem C6_arguments_and_stdout argv w :
  ((length argv < 2 \/ 3 < length argv)%nat ->
   program rt argv w = (1%Z, console_error (Line "Must include 2 or 3 arguments.") w)) /\
  ((2 <= length argv <= 3)%nat ->
   nth 1 argv "" = "-" ->
   files (snd (program rt argv w)) = files w /\
   forall content, generate rt w (nth 0 argv "") = Return content ->
     program rt argv w = (0%Z, console_log content w)).
Proof.
  split.
  - intros B. unfold program.
    replace ((length argv <? 2)%nat || (3 <? length argv)%nat) with true; [reflexivity|].
    symmetry. apply orb_true_iff.
    destruct B; [left|right]; now apply Nat.ltb_lt.
  - intros A O. unfold program, main. rewrite (arity_ok _ A), O.
    cbn [String.eqb Ascii.eqb Bool.eqb].
    destruct (generate rt w (nth 0 argv "")) as [content|e]; cbn [snd].
    + split; [reflexivity|]. intros c E. inversion E. reflexivity.
    + split; [reflexivity|]. discriminate.
Qed.

(** What a write that goes through leaves. *)
Lemma writeFileSync_written file data w w' :
  writeFileSync rt file data w = Return w' ->
  files w' = (fun f => if String.eqb f file then Some (File data) else files w f) /\
  stdout w' = stdout w /\
  stderr w' = stderr w.
Proof.
  unfold writeFileSync. intros W.
  destruct (files w file) as [[text|]|];
    destruct (files w (path_dirname rt file)) as [[parent|]|];
    destruct (denied w file); try discriminate;
    inversion W; auto.
Qed.

(** When a write goes through. *)
Lemma writeFileSync_allowed file data w :
  files w file <> Some Directory ->
  files w (path_dirname rt file) = Some Directory ->
  denied w file = None ->
  exists w', writeFileSync rt file data w = Return w'.
Proof.
  unfold writeFileSync. intros T P D. rewrite P, D.
  destruct (files w file) as [[text|]|]; eauto. now elim T.
Qed.


(** C8.  [generate] returns a text exactly when the input file is read and
    pre-processed and the generator emits lines; the text is then the fixed
    header, the lines joined by newlines in their order, and the footer,
    which is empty. *)
Theorem C8_output_layout w inPath out :
  (generate rt w inPath = Return out <->
   exists content schema lines,
     readFileSync w inPath = Return content /\
     appendDeprecatedDescription rt content = Return schema /\
     run rt (fetch rt inPath w) (quicktype rt schema) = Return lines /\
     out = header ++ String.concat LF lines ++ footer) /\
  footer = "".
Proof.
  split; [|reflexivity]. split.
  - unfold generate. intros G.
    destruct (readFileSync w inPath) as [content|] eqn:R; cbn [bind] in G; [|discriminate].
    destruct (appendDeprecatedDescription rt content) as [schema|] eqn:D;
      cbn [bind] in G; [|discriminate].
    destruct (run rt (fetch rt inPath w) (quicktype rt schema)) as [lines|] eqn:Q;
      cbn [bind] in G; [|discriminate].
    inversion G. exists content, schema, lines. auto.
  - intros [content [schema [lines [R [D [Q ->]]]]]].
    rewrite (generate_steps _ _ _ _ R D), Q. reflexivity.
Qed.

(** The header, line by line. *)
Lemma header_lines :
  header =
  String.concat LF
    [""; "// THIS FILE IS AUTOMATICALLY GENERATED. TO UPDATE THIS FILE YOU NEED TO CHANGE THE";
     "// CORRESPONDING JSON SCHEMA FILE, THEN RUN devkit-admin build (or bazel build ...).";
     ""; ""].
Proof. reflexivity. Qed.

End Driver.

(** * Further properties of the pre-processor *)

Section PreprocessorCoverage.

Context (rt : Runtime).

#[local] Abbreviation value := (json (number rt)).

Implicit Types (content e : value) (key name : string).

(** *** The coercion of a description *)

Lemma ToString_array_cons (x : value) (rest : list value) :
  ToString rt (JArray (x :: rest)) =
  let! s := match x with JNull => Return "" | _ => ToString rt x end in
  match rest with
  | [] => Return s
  | _ => let! r := ToString rt (JArray rest) in Return (s ++ "," ++ r)
  end.
Proof. reflexivity. Qed.

Lemma ToString_hides (v : value) :
  if hides_toString rt v then ToString rt v = Throw TypeError
  else exists s, ToString rt v = Return s.
Proof.
  induction v as [|b|n|s|items IH|members] using json_array_ind;
    try (cbn; eauto; fail).
  - destruct b; cbn; eauto.
  - induction IH as [|x rest Hx _ IHrest].
    + cbn. eauto.
    + rewrite ToString_array_cons.
      change (hides_toString rt (JArray (x :: rest)))
        with (hides_toString rt x || hides_toString rt (JArray rest)).
      destruct (hides_toString rt x) eqn:Ex; cbn [orb].
      * destruct x; try discriminate; rewrite Hx; reflexivity.
      * assert (S : exists s, match x with
                              | JNull => Return ""
                              | _ => ToString rt x
                              end = Return s)
          by (destruct x; eauto).
        destruct S as [s ->]. cbn [bind].
        destruct rest as [|y rest]; [cbn; eauto|].
        destruct (hides_toString rt (JArray (y :: rest))).
        -- rewrite IHrest. reflexivity.
        -- destruct IHrest as [r ->]. cbn [bind]. eauto.
  - cbn. destruct (assoc_get "toString" members); eauto.
Qed.

(** *** One iteration, case by case *)

Lemma loop_body_unprocessable e :
  if unprocessable rt e then loop_body rt e = Throw TypeError
  else exists e', loop_body rt e = Return e'.
Proof.
  unfold unprocessable, loop_body.
  destruct e as [|b|n|s|items|members]; try (cbn; eauto; fail).
  fold (destructured_description rt (JObject members)).
  destruct (ToBoolean rt (get rt (JObject members) "x-deprecated")); cbn [andb negb].
  - pose proof (ToString_hides (destructured_description rt (JObject members))) as T.
    destruct (hides_toString rt (destructured_description rt (JObject members))).
    + rewrite T. reflexivity.
    + destruct T as [text ->]. cbn [bind]. eauto.
  - eauto.
Qed.

Lemma loop_body_members e e' name :
  loop_body rt e = Return e' ->
  name <> "description" ->
  get rt e' name = get rt e name.
Proof.
  intros B D. unfold loop_body in B.
  destruct e as [|b|n|s|items|members]; try discriminate;
    try (cbn in B; inversion B; reflexivity).
  destruct (ToBoolean rt (get rt (JObject members) "x-deprecated")); cbn [negb] in B.
  - destruct (ToString rt _) as [text|]; cbn [bind] in B; [|discriminate].
    inversion B. cbn [set get]. apply assoc_get_set_other. congruence.
  - inversion B. reflexivity.
Qed.

Lemma loop_body_description e e' :
  loop_body rt e = Return e' ->
  ToBoolean rt (get rt e "x-deprecated") = true ->
  exists text,
    ToString rt (destructured_description rt e) = Return text /\
    get rt e' "description" = Some (JString (text ++ marker rt (get rt e "x-deprecated"))).
Proof.
  intros B T. unfold loop_body in B.
  destruct e as [|b|n|s|items|members]; try discriminate.
  fold (destructured_description rt (JObject members)) in B.
  rewrite T in B. cbn [negb] in B.
  destruct (ToString rt _) as [text|]; cbn [bind] in B; [|discriminate].
  inversion B. exists text. split; [reflexivity|].
  cbn [set get]. apply assoc_get_set_same.
Qed.

(** *** The loop, member by member *)

Lemma keys_assoc_set_present {A : Type} k (v x : A) (m : list (string * A)) :
  assoc_get k m = Some x -> keys (assoc_set k v m) = keys m.
Proof.
  induction m as [|[j y] m IH]; cbn [assoc_get assoc_set]; [discriminate|].
  destruct (String.eqb k j); intros G; cbn [keys map fst]; [reflexivity|].
  f_equal. now apply IH.
Qed.

Lemma assoc_set_unchanged {A : Type} k (v : A) (m : list (string * A)) :
  assoc_get k m = Some v -> assoc_set k v m = m.
Proof.
  induction m as [|[j y] m IH]; cbn [assoc_get assoc_set]; [discriminate|].
  destruct (String.eqb k j); intros G.
  - inversion G. reflexivity.
  - f_equal. now apply IH.
Qed.

Lemma mapM_step_keys (props props' : list (string * value)) :
  mapM (step rt) props = Return props' -> keys props' = keys props.
Proof.
  revert props'. induction props as [|[k x] props IH]; intros props' M.
  - inversion M. reflexivity.
  - cbn [mapM] in M.
    change (step rt (k, x)) with (let! e' := loop_body rt x in Return (k, e')) in M.
    destruct (loop_body rt x) as [x'|]; cbn [bind] in M; [|discriminate].
    destruct (mapM (step rt) props) as [rest|]; cbn [bind] in M; [|discriminate].
    inversion M. cbn [keys map fst]. f_equal. now apply IH.
Qed.

Lemma mapM_step_unprocessable (props : list (string * value)) :
  if existsb (fun member => unprocessable rt (snd member)) props
  then mapM (step rt) props = Throw TypeError
  else exists props', mapM (step rt) props = Return props'.
Proof.
  induction props as [|[k x] props IH]; cbn [existsb snd].
  - eexists. reflexivity.
  - cbn [mapM].
    change (step rt (k, x)) with (let! e' := loop_body rt x in Return (k, e')).
    pose proof (loop_body_unprocessable x) as B.
    destruct (unprocessable rt x); cbn [orb].
    + rewrite B. reflexivity.
    + destruct B as [x' ->]. cbn [bind].
      destruct (existsb _ props).
      * rewrite IH. reflexivity.
      * destruct IH as [rest ->]. cbn [bind]. eauto.
Qed.

Lemma annotate_object members (props : list (string * value)) :
  assoc_get "properties" members = Some (JObject props) ->
  NoDup (keys props) ->
  annotate rt (JObject members) =
  let! props' := mapM (step rt) props in
  Return (JObject (assoc_set "properties" (JObject props') members)).
Proof.
  intros P N. unfold annotate. cbn [get]. rewrite P. cbn [loop].
  rewrite (for_in_mapM rt _ N).
  destruct (mapM (step rt) props); reflexivity.
Qed.

Lemma mapM_loop_body_nth (items items' : list value) i e :
  mapM (loop_body rt) items = Return items' ->
  nth_error items i = Some e ->
  exists e', nth_error items' i = Some e' /\ loop_body rt e = Return e'.
Proof.
  revert items' i. induction items as [|x items IH]; intros items' i M G.
  - destruct i; discriminate.
  - cbn [mapM] in M.
    destruct (loop_body rt x) as [x'|] eqn:B; cbn [bind] in M; [|discriminate].
    destruct (mapM (loop_body rt) items) as [rest|]; cbn [bind] in M; [|discriminate].
    inversion M; subst items'. destruct i as [|i]; cbn [nth_error] in *.
    + inversion G; subst. eauto.
    + eauto.
Qed.

(** The names at the top and under [properties] after the pass. *)
Lemma annotate_names content content' :
  NoDup (property_keys rt content) ->
  annotate rt content = Return content' ->
  member_names rt content' = member_names rt content /\
  property_keys rt content' = property_keys rt content.
Proof.
  intros N H.
  destruct content as [|b|n|s|items|members]; try discriminate;
    try (cbn in H; inversion H; split; reflexivity).
  unfold property_keys in N. cbn [get] in N.
  destruct (assoc_get "properties" members) as [p|] eqn:P.
  - destruct p as [|b|n|s|items|props].
    1-4: (unfold annotate in H; cbn [get] in H; rewrite P in H; cbn in H;
          inversion H; rewrite (assoc_set_unchanged _ _ _ P); split; reflexivity).
    + unfold annotate in H. cbn [get] in H. rewrite P in H. cbn [loop] in H.
      destruct (mapM (loop_body rt) items) as [items'|]; cbn [bind] in H; [|discriminate].
      inversion H. unfold property_keys. cbn [set get member_names].
      rewrite assoc_get_set_same, P. split; [|reflexivity].
      now apply keys_assoc_set_present with (x := JArray items).
    + rewrite (annotate_object _ _ P N) in H.
      destruct (mapM (step rt) props) as [props'|] eqn:M; cbn [bind] in H; [|discriminate].
      inversion H. unfold property_keys. cbn [get member_names].
      rewrite assoc_get_set_same, P. split.
      * now apply keys_assoc_set_present with (x := JObject props).
      * now apply mapM_step_keys.
  - unfold annotate in H. cbn [get] in H. rewrite P in H. cbn in H.
    inversion H. split; reflexivity.
Qed.

(** *** What the pass keeps and what it changes *)

(** X1.  In the document the pre-processor builds, every entry of
    [properties] has, under every name other than [description], the
    member it had: in particular the [x-deprecated] annotation stays. *)
Theorem X1_entry_members_kept content content' key e name :
  NoDup (property_keys rt content) ->
  annotate rt content = Return content' ->
  entry rt content key = Some e ->
  name <> "description" ->
  exists e', entry rt content' key = Some e' /\ get rt e' name = get rt e name.
Proof.
  intros N H E D.
  destruct (annotate_entry rt _ _ _ _ N H E) as [e' [B E']].
  exists e'. split; [exact E'|]. now apply loop_body_members.
Qed.

(** X2.  The loop adds, removes and reorders no name: the document that
    the pre-processor serialises has the member names of the parsed input
    and, under [properties], its property names, as the same lists. *)
Theorem X2_names_and_order_kept schema content content' :
  JSON_parse rt schema = Some content ->
  NoDup (property_keys rt content) ->
  annotate rt content = Return content' ->
  appendDeprecatedDescription rt schema = Return (JSON_stringify rt content') /\
  member_names rt content' = member_names rt content /\
  property_keys rt content' = property_keys rt content /\
  NoDup (property_keys rt content').
Proof.
  intros P N H. destruct (annotate_names _ _ N H) as [M K].
  split; [now apply appendDeprecatedDescription_parsed with content|].
  split; [exact M|]. split; [exact K|]. now rewrite K.
Qed.

(** X3.  Outside [properties] the document is untouched: every other
    top-level member of the result is the member of the input. *)
Theorem X3_other_members_kept schema content content' name :
  JSON_parse rt schema = Some content ->
  annotate rt content = Return content' ->
  name <> "properties" ->
  appendDeprecatedDescription rt schema = Return (JSON_stringify rt content') /\
  get rt content' name = get rt content name.
Proof.
  intros P H D. split.
  - now apply appendDeprecatedDescription_parsed with content.
  - now apply annotate_other_members.
Qed.

(** X4.  A truthy annotation that is not a text ([true], a non-zero number,
    an array, an object) appends the bare marker, and a description that
    is not a text is first converted to one: the new description is the
    conversion of the old one followed by "\n@deprecated". *)
Theorem X4_bare_marker_and_coercion content content' key e deprecated text :
  NoDup (property_keys rt content) ->
  annotate rt content = Return content' ->
  entry rt content key = Some e ->
  get rt e "x-deprecated" = Some deprecated ->
  ToBoolean rt (Some deprecated) = true ->
  (forall s, deprecated <> JString s) ->
  ToString rt (destructured_description rt e) = Return text ->
  description rt content' key = Some (JString (text ++ LF ++ "@deprecated")).
Proof.
  intros N H E A T NS S.
  destruct (annotate_entry rt _ _ _ _ N H E) as [e' [B E']].
  destruct (loop_body_description _ _ B) as [text' [S' D]]; [now rewrite A|].
  rewrite S in S'. inversion S'; subst text'.
  unfold description. rewrite E', D, A. do 2 f_equal.
  unfold marker. destruct deprecated; try reflexivity. now elim (NS s).
Qed.

(** X5.  On a document whose [properties] is an object, the pre-processor
    throws [TypeError] exactly when some entry is [null] or some entry with
    a truthy annotation has a description that hides [toString]; otherwise
    it returns the serialised document. *)
Theorem X5_failure_characterised schema members (props : list (string * value)) :
  JSON_parse rt schema = Some (JObject members) ->
  assoc_get "properties" members = Some (JObject props) ->
  NoDup (keys props) ->
  if existsb (fun member => unprocessable rt (snd member)) props
  then appendDeprecatedDescription rt schema = Throw TypeError
  else exists content',
         annotate rt (JObject members) = Return content' /\
         appendDeprecatedDescription rt schema = Return (JSON_stringify rt content').
Proof.
  intros P G N. unfold appendDeprecatedDescription. rewrite P.
  rewrite (annotate_object _ _ G N).
  pose proof (mapM_step_unprocessable props) as M.
  destruct (existsb _ props).
  - rewrite M. reflexivity.
  - destruct M as [props' ->]. cbn [bind]. eauto.
Qed.

(** X6.  The pre-processor is not idempotent: the annotation stays in the
    document, so a second pass over the result appends the marker a second
    time. *)
Theorem X6_second_pass_appends_again content once twice key e deprecated prior :
  NoDup (property_keys rt content) ->
  annotate rt content = Return once ->
  annotate rt once = Return twice ->
  entry rt content key = Some e ->
  get rt e "x-deprecated" = Some deprecated ->
  ToBoolean rt (Some deprecated) = true ->
  destructured_description rt e = JString prior ->
  description rt once key = Some (JString (prior ++ marker rt (Some deprecated))) /\
  description rt twice key =
  Some (JString ((prior ++ marker rt (Some deprecated)) ++ marker rt (Some deprecated))).
Proof.
  intros N H1 H2 E A T D.
  destruct (annotate_entry rt _ _ _ _ N H1 E) as [e1 [B1 E1]].
  destruct (loop_body_description _ _ B1) as [t1 [S1 D1]]; [now rewrite A|].
  rewrite D in S1. inversion S1; subst t1. rewrite A in D1.
  assert (A1 : get rt e1 "x-deprecated" = Some deprecated).
  { rewrite (loop_body_members _ _ "x-deprecated" B1); [exact A | discriminate]. }
  destruct (annotate_names _ _ N H1) as [_ K].
  assert (N1 : NoDup (property_keys rt once)) by now rewrite K.
  destruct (annotate_entry rt _ _ _ _ N1 H2 E1) as [e2 [B2 E2]].
  destruct (loop_body_description _ _ B2) as [t2 [S2 D2]]; [now rewrite A1|].
  unfold destructured_description in S2. rewrite D1 in S2.
  inversion S2; subst t2. rewrite A1 in D2.
  unfold description. rewrite E1, E2. auto.
Qed.

(** X7.  A [properties] that is [null], a boolean, a number or a text has
    nothing to walk: the document comes back as it is. *)
Theorem X7_scalar_properties_identity schema content p :
  JSON_parse rt schema = Some content ->
  get rt content "properties" = Some p ->
  match p with
  | JArray _ | JObject _ => False
  | _ => True
  end ->
  appendDeprecatedDescription rt schema = Return (JSON_stringify rt content).
Proof.
  intros P G S.
  apply appendDeprecatedDescription_parsed with content; [exact P|].
  destruct content as [|b|n|s|items|members]; try discriminate.
  cbn [get] in G. unfold annotate. cbn [get]. rewrite G.
  destruct p; try (now elim S); cbn;
    now rewrite (assoc_set_unchanged _ _ _ G).
Qed.

(** X8.  A [properties] that is an array is walked by index like an object:
    an element with a truthy annotation gets the converted description
    followed by the marker, and the array keeps its length. *)
Theorem X8_array_properties content content' (items : list value) i e text :
  get rt content "properties" = Some (JArray items) ->
  annotate rt content = Return content' ->
  nth_error items i = Some e ->
  ToBoolean rt (get rt e "x-deprecated") = true ->
  ToString rt (destructured_description rt e) = Return text ->
  exists items' e',
    get rt content' "properties" = Some (JArray items') /\
    length items' = length items /\
    nth_error items' i = Some e' /\
    get rt e' "description" =
    Some (JString (text ++ marker rt (get rt e "x-deprecated"))).
Proof.
  intros G H I T S.
  destruct content as [|b|n|s|its|members]; try discriminate.
  cbn [get] in G. unfold annotate in H. cbn [get] in H. rewrite G in H. cbn [loop] in H.
  destruct (mapM (loop_body rt) items) as [items'|] eqn:M; cbn [bind] in H; [|discriminate].
  inversion H.
  destruct (mapM_loop_body_nth _ _ _ _ M I) as [e' [I' B]].
  destruct (loop_body_description _ _ B T) as [text' [S' D]].
  rewrite S in S'. inversion S'; subst text'.
  exists items', e'. cbn [set get]. rewrite assoc_get_set_same.
  repeat split; auto.
  clear - M. revert items' M. induction items as [|x items IH]; intros items' M.
  - inversion M. reflexivity.
  - cbn [mapM] in M.
    destruct (loop_body rt x); cbn [bind] in M; [|discriminate].
    destruct (mapM (loop_body rt) items) as [rest|]; cbn [bind] in M; [|discriminate].
    inversion M. cbn [length]. f_equal. now apply IH.
Qed.

End PreprocessorCoverage.

(** * Further properties of the resolver *)

Section ResolverCoverage.

Context (rt : Runtime).

#[local] Abbreviation value := (json (number rt)).

Implicit Types (w : World) (url : Url) (inPath address : string).

(** Without a response the resolver is left with the two file-system
    steps. *)
Lemma fetch_unanswered inPath w address url :
  URL_parse rt address = Return url ->
  is_ng_cli url = false ->
  unanswered w address url ->
  fetch rt inPath w address =
  let! content := fetch_relative rt inPath w address Null in
  let! content := fetch_literal rt w address content in
  match content with
  | Null => Return None
  | _ =>
      let! text := appendDeprecatedDescription rt (content_text content) in
      let! schema := parseJSON rt text address in
      Return (Some schema)
  end.
Proof.
  intros U S N. unfold fetch, fetch_remote. rewrite U. cbn [bind]. rewrite S.
  destruct (has_hostname url) eqn:H; [|reflexivity].
  destruct N as [N|[e N]]; [congruence|]. rewrite N. reflexivity.
Qed.

(** What [fetch] answers once [content] holds a text. *)
Lemma processed_is_not_absent text address :
  (let! processed := appendDeprecatedDescription rt text in
   let! schema := parseJSON rt processed address in
   Return (Some schema)) <> Return None.
Proof.
  destruct (appendDeprecatedDescription rt text) as [processed|]; cbn [bind];
    [|discriminate].
  destruct (parseJSON rt processed address); cbn [bind]; discriminate.
Qed.

(** X9.  When no response comes and the address is not absolute, a file at
    the address taken relative to the directory of the input file is the
    one that is read, whether or not the bare address names a file too; its
    text is pre-processed and parsed as it is, without trimming. *)
Theorem X9_relative_file_first inPath w address url text :
  URL_parse rt address = Return url ->
  is_ng_cli url = false ->
  unanswered w address url ->
  path_isAbsolute rt address = false ->
  files w (path_join rt [path_dirname rt inPath; address]) = Some (File text) ->
  fetch rt inPath w address =
  let! processed := appendDeprecatedDescription rt text in
  let! schema := parseJSON rt processed address in
  Return (Some schema).
Proof.
  intros U S N A F. rewrite (fetch_unanswered _ _ _ _ U S N).
  unfold fetch_relative, existsSync, readFileSync. rewrite A, F. reflexivity.
Qed.

(** X10.  When no response comes and the relative step finds nothing (the
    address is absolute, or no file exists relative to the input), a file
    at the bare address is read, trimmed, pre-processed and parsed. *)
Theorem X10_literal_file_trimmed inPath w address url text :
  URL_parse rt address = Return url ->
  is_ng_cli url = false ->
  unanswered w address url ->
  path_isAbsolute rt address = true \/
  files w (path_join rt [path_dirname rt inPath; address]) = None ->
  files w address = Some (File text) ->
  fetch rt inPath w address =
  let! processed := appendDeprecatedDescription rt (String_trim rt text) in
  let! schema := parseJSON rt processed address in
  Return (Some schema).
Proof.
  intros U S N R F. rewrite (fetch_unanswered _ _ _ _ U S N).
  assert (E : fetch_relative rt inPath w address Null = Return Null).
  { unfold fetch_relative, existsSync.
    destruct R as [R|R]; rewrite R; [reflexivity|].
    destruct (path_isAbsolute rt address); reflexivity. }
  rewrite E. cbn [bind]. unfold fetch_literal, existsSync, readFileSync.
  rewrite F. reflexivity.
Qed.

(** X11.  [fetch] answers with absence exactly when the address parses, is
    not of the custom scheme, brings no response, and names no file or
    directory, either relative to the input (unless absolute) or by
    itself. *)
Theorem X11_absence_characterised inPath w address :
  fetch rt inPath w address = Return None <->
  exists url,
    URL_parse rt address = Return url /\
    is_ng_cli url = false /\
    unanswered w address url /\
    (path_isAbsolute rt address = true \/
     files w (path_join rt [path_dirname rt inPath; address]) = None) /\
    files w address = None.
Proof.
  split.
  - intros H. unfold fetch in H.
    destruct (URL_parse rt address) as [url|] eqn:U; cbn [bind] in H; [|discriminate].
    exists url. split; [reflexivity|].
    unfold fetch_remote in H.
    destruct (is_ng_cli url) eqn:S.
    { exfalso.
      destruct (hostname url), (path url); cbn [bind] in H; try discriminate.
      destruct (readFileSync w _); cbn [bind] in H; [|discriminate].
      cbn in H. now apply processed_is_not_absent in H. }
    split; [reflexivity|].
    assert (N : unanswered w address url /\
                (let! content := fetch_relative rt inPath w address Null in
                 let! content := fetch_literal rt w address content in
                 match content with
                 | Null => Return None
                 | _ =>
                     let! text := appendDeprecatedDescription rt (content_text content) in
                     let! schema := parseJSON rt text address in
                     Return (Some schema)
                 end) = Return None).
    { destruct (has_hostname url) eqn:Hh.
      - destruct (network w address) as [response|e] eqn:F; cbn [bind] in H.
        + exfalso. cbn in H. now apply processed_is_not_absent in H.
        + split; [right; eauto | exact H].
      - split; [now left | exact H]. }
    destruct N as [N T]. split; [exact N|]. clear H.
    unfold fetch_relative, fetch_literal, existsSync, readFileSync in T.
    destruct (path_isAbsolute rt address) eqn:A; cbn [negb] in T.
    + cbn [bind] in T.
      destruct (files w address) as [[text|]|] eqn:L; cbn [bind] in T;
        try discriminate; [|auto].
      exfalso. now apply processed_is_not_absent in T.
    + destruct (files w (path_join rt [path_dirname rt inPath; address]))
        as [[text|]|] eqn:R; cbn [bind] in T; try discriminate.
      * exfalso. now apply processed_is_not_absent in T.
      * destruct (files w address) as [[text|]|] eqn:L; cbn [bind] in T;
          try discriminate; [|auto].
        exfalso. now apply processed_is_not_absent in T.
  - intros [url [U [S [N [R L]]]]]. rewrite (fetch_unanswered _ _ _ _ U S N).
    unfold fetch_relative, fetch_literal, existsSync.
    destruct R as [R|R]; rewrite R; cbn [negb bind].
    + rewrite L. reflexivity.
    + destruct (path_isAbsolute rt address); cbn [negb bind]; rewrite L; reflexivity.
Qed.

(** X12.  A directory counts as existing: when the candidate the resolver
    reaches is a directory, the read throws [EISDIR] and [fetch] throws it
    too, without trying the next step. *)
Theorem X12_directory_is_not_skipped inPath w address url :
  URL_parse rt address = Return url ->
  is_ng_cli url = false ->
  unanswered w address url ->
  (path_isAbsolute rt address = false ->
   files w (path_join rt [path_dirname rt inPath; address]) = Some Directory ->
   fetch rt inPath w address =
   Throw (EISDIR (path_join rt [path_dirname rt inPath; address]))) /\
  (path_isAbsolute rt address = true \/
   files w (path_join rt [path_dirname rt inPath; address]) = None ->
   files w address = Some Directory ->
   fetch rt inPath w address = Throw (EISDIR address)).
Proof.
  intros U S N. rewrite (fetch_unanswered _ _ _ _ U S N). split.
  - intros A F. unfold fetch_relative, existsSync, readFileSync.
    rewrite A, F. reflexivity.
  - intros R F.
    assert (E : fetch_relative rt inPath w address Null = Return Null).
    { unfold fetch_relative, existsSync.
      destruct R as [R|R]; rewrite R; [reflexivity|].
      destruct (path_isAbsolute rt address); reflexivity. }
    rewrite E. cbn [bind]. unfold fetch_literal, existsSync, readFileSync.
    rewrite F. reflexivity.
Qed.

(** X13.  For an address of the custom scheme, and for an address without a
    host, the network is not consulted: two machines with the same files
    give the same answer. *)
Theorem X13_network_not_consulted inPath w w' address url :
  URL_parse rt address = Return url ->
  is_ng_cli url = true \/ has_hostname url = false ->
  files w' = files w ->
  fetch rt inPath w' address = fetch rt inPath w address.
Proof.
  intros U C F.
  assert (R : fetch_remote rt w' address url = fetch_remote rt w address url).
  { unfold fetch_remote, readFileSync. rewrite F.
    destruct (is_ng_cli url); [reflexivity|].
    destruct C as [C|C]; [discriminate|]. rewrite C. reflexivity. }
  unfold fetch. rewrite U. cbn [bind]. rewrite R.
  unfold fetch_relative, fetch_literal, existsSync, readFileSync. rewrite F.
  reflexivity.
Qed.

End ResolverCoverage.

(** * Further properties of the driver *)

Section DriverCoverage.

Context (rt : Runtime).

Implicit Types (w : World) (argv : list string).

(** X14.  The run ends with status 0, 1 or 127 and no other; with 1
    whenever the number of arguments is wrong; with 0 or 127 only when it
    is right; with 0 only after [generate] has returned. *)
Theorem X14_exit_status argv w :
  (fst (program rt argv w) = 0 \/ fst (program rt argv w) = 1 \/
   fst (program rt argv w) = 127)%Z /\
  ((length argv < 2 \/ 3 < length argv)%nat -> fst (program rt argv w) = 1%Z) /\
  (fst (program rt argv w) = 0%Z \/ fst (program rt argv w) = 127%Z ->
   (2 <= length argv <= 3)%nat) /\
  (fst (program rt argv w) = 0%Z ->
   exists content, generate rt w (nth 0 argv "") = Return content).
Proof.
  unfold program, main.
  destruct ((length argv <? 2)%nat || (3 <? length argv)%nat) eqn:A.
  - cbn [fst]. split; [auto|]. split; [reflexivity|].
    split; [intros [H|H]; discriminate | discriminate].
  - assert (B : (2 <= length argv <= 3)%nat).
    { apply orb_false_iff in A. destruct A as [A1 A2].
      apply Nat.ltb_ge in A1, A2. lia. }
    assert (C : (length argv < 2 \/ 3 < length argv)%nat -> False) by lia.
    destruct (generate rt w (nth 0 argv "")) as [content|e].
    + destruct (String.eqb (nth 1 argv "") "-"); cbn [fst].
      * split; [auto|]. split; [intros H; now elim C|]. split; eauto.
      * destruct (writeFileSync rt _ content w); cbn [fst].
        -- split; [auto|]. split; [intros H; now elim C|]. split; eauto.
        -- split; [auto|]. split; [intros H; now elim C|]. split; [auto|discriminate].
    + cbn [fst]. split; [auto|]. split; [intros H; now elim C|].
      split; [auto|discriminate].
Qed.

(** X15.  Only the first two arguments are read: two runs with two or
    three arguments that agree on the input path and on the output path
    are the same run, whatever the third argument. *)
Theorem X15_only_two_arguments_read argv argv' w :
  (2 <= length argv <= 3)%nat ->
  (2 <= length argv' <= 3)%nat ->
  nth 0 argv "" = nth 0 argv' "" ->
  nth 1 argv "" = nth 1 argv' "" ->
  program rt argv w = program rt argv' w.
Proof.
  intros A A' I O. unfold program.
  rewrite (arity_ok _ A), (arity_ok _ A'), I, O. reflexivity.
Qed.

(** X16.  With two or three arguments, an output path other than [-], a
    successful generation and a write that goes through (the resolved path
    is no directory, the directory that holds it exists, the machine does
    not deny the write), the run ends with status 0 having replaced the
    file at the output path resolved against BUILD_WORKSPACE_DIRECTORY (or
    against [.] when the variable is unset or empty) by the generated text,
    every other file being as before and nothing being printed. *)
Theorem X16_output_written argv w content root :
  (2 <= length argv <= 3)%nat ->
  nth 1 argv "" <> "-" ->
  generate rt w (nth 0 argv "") = Return content ->
  (BUILD_WORKSPACE_DIRECTORY w = None /\ root = ".") \/
  (BUILD_WORKSPACE_DIRECTORY w = Some "" /\ root = ".") \/
  (BUILD_WORKSPACE_DIRECTORY w = Some root /\ root <> "") ->
  files w (path_resolve rt root (nth 1 argv "")) <> Some Directory ->
  files w (path_dirname rt (path_resolve rt root (nth 1 argv ""))) = Some Directory ->
  denied w (path_resolve rt root (nth 1 argv "")) = None ->
  fst (program rt argv w) = 0%Z /\
  files (snd (program rt argv w)) (path_resolve rt root (nth 1 argv "")) =
  Some (File content) /\
  (forall file, file <> path_resolve rt root (nth 1 argv "") ->
     files (snd (program rt argv w)) file = files w file) /\
  stdout (snd (program rt argv w)) = stdout w /\
  stderr (snd (program rt argv w)) = stderr w.
Proof.
  intros A O G B D P N. unfold program, main. rewrite (arity_ok _ A), G.
  apply String.eqb_neq in O. rewrite O.
  assert (E : match BUILD_WORKSPACE_DIRECTORY w with
              | Some d => if String.eqb d "" then "." else d
              | None => "."
              end = root).
  { destruct B as [[B ->]|[[B ->]|[B R]]]; rewrite B; try reflexivity.
    apply String.eqb_neq in R. now rewrite R. }
  rewrite E.
  set (out := path_resolve rt root (nth 1 argv "")) in *.
  destruct (writeFileSync_allowed rt out content w D P N) as [w' W]. rewrite W.
  destruct (writeFileSync_written rt _ _ _ _ W) as [F [So Se]].
  cbn [fst snd]. rewrite F, String.eqb_refl. repeat split; auto.
  intros file Ne. apply String.eqb_neq in Ne. now rewrite Ne.
Qed.

(** X17.  With two or three arguments, a missing input file and an input
    that is not JSON each end the run before the generator is asked
    anything: the process prints "An error happened:" and the error
    ([ENOENT] of the input path, [SyntaxError]) and exits with status
    127. *)
Theorem X17_input_errors argv w :
  (2 <= length argv <= 3)%nat ->
  (files w (nth 0 argv "") = None ->
   program rt argv w =
   (127%Z, console_error (Failure (ENOENT (nth 0 argv "")))
             (console_error (Line "An error happened:") w))) /\
  (forall text,
     files w (nth 0 argv "") = Some (File text) ->
     JSON_parse rt text = None ->
     program rt argv w =
     (127%Z, console_error (Failure SyntaxError)
               (console_error (Line "An error happened:") w))).
Proof.
  intros A. split.
  - intros F. apply program_generation_failed; [exact A|].
    unfold generate, readFileSync. rewrite F. reflexivity.
  - intros text F P. apply program_generation_failed; [exact A|].
    unfold generate, readFileSync. rewrite F. cbn [bind].
    unfold appendDeprecatedDescription. rewrite P. reflexivity.
Qed.

(** X18.  After a successful generation with an output path other than
    [-], whatever BUILD_WORKSPACE_DIRECTORY is: when the resolved output
    path is a directory the write throws [EISDIR], and when it is not but
    the directory that should hold it is missing the write throws
    [ENOENT]; the run prints the error, ends with status 127 and leaves
    every file as it was. *)
Theorem X18_output_is_directory argv w content root :
  (2 <= length argv <= 3)%nat ->
  nth 1 argv "" <> "-" ->
  generate rt w (nth 0 argv "") = Return content ->
  (BUILD_WORKSPACE_DIRECTORY w = None /\ root = ".") \/
  (BUILD_WORKSPACE_DIRECTORY w = Some "" /\ root = ".") \/
  (BUILD_WORKSPACE_DIRECTORY w = Some root /\ root <> "") ->
  (files w (path_resolve rt root (nth 1 argv "")) = Some Directory ->
   program rt argv w =
   (127%Z, console_error (Failure (EISDIR (path_resolve rt root (nth 1 argv ""))))
             (console_error (Line "An error happened:") w))) /\
  (files w (path_resolve rt root (nth 1 argv "")) <> Some Directory ->
   files w (path_dirname rt (path_resolve rt root (nth 1 argv ""))) = None ->
   program rt argv w =
   (127%Z, console_error (Failure (ENOENT (path_resolve rt root (nth 1 argv ""))))
             (console_error (Line "An error happened:") w))).
Proof.
  intros A O G B. unfold program, main. rewrite (arity_ok _ A), G.
  apply String.eqb_neq in O. rewrite O.
  assert (E : match BUILD_WORKSPACE_DIRECTORY w with
              | Some d => if String.eqb d "" then "." else d
              | None => "."
              end = root).
  { destruct B as [[B ->]|[[B ->]|[B R]]]; rewrite B; try reflexivity.
    apply String.eqb_neq in R. now rewrite R. }
  rewrite E. unfold writeFileSync. split.
  - intros D. rewrite D. reflexivity.
  - intros D P. rewrite P.
    destruct (files w (path_resolve rt root (nth 1 argv ""))) as [[text|]|];
      [reflexivity | now elim D | reflexivity].
Qed.

End DriverCoverage.

(** * Sample runs *)

Section SampleRuns.

Import Sample.

Example annotate_annotated_schema :
  annotate platform annotated_schema =
  Return
    (JObject
       [("type", JString "object");
        ("properties",
         JObject
           [("old", JObject [("type", JString "string"); ("x-deprecated", JBool true);
                             ("description", JString (LF ++ "@deprecated"))]);
            ("port", JObject [("type", JString "number");
                              ("description", JString "Port to listen on.")]);
            ("host", JObject [("description",
                               JString ("Host name." ++ LF ++ "@deprecated use X instead"));
                              ("x-deprecated", JString "use X instead")]);
            ("off", JObject [("description", JString "Kept."); ("x-deprecated", JBool false)]);
            ("zero", JObject [("x-deprecated", JNumber 0%Z)]);
            ("empty", JObject [("x-deprecated", JString "")]);
            ("none", JObject [("description", JString "Kept too.");
                              ("x-deprecated", JNull)])])]).
Proof. reflexivity. Qed.

(** A [properties] that is an array is walked by index. *)
Example annotate_array_properties :
  annotate platform
    (JObject [("properties", JArray [JObject [("x-deprecated", JNumber 1%Z)]; JBool true])]) =
  Return
    (JObject [("properties",
               JArray [JObject [("x-deprecated", JNumber 1%Z);
                                ("description", JString (LF ++ "@deprecated"))];
                       JBool true])]).
Proof. reflexivity. Qed.

(** A [null] entry cannot be destructured. *)
Example annotate_null_entry :
  annotate platform (JObject [("properties", JObject [("a", JNull)])]) = Throw TypeError.
Proof. reflexivity. Qed.

(** A description that is not a text is coerced by [+=]. *)
Example loop_body_coerces :
  loop_body platform
    (JObject [("description", JArray [JNumber 1%Z; JNull; JArray [JNumber 2%Z; JNumber 3%Z];
                                      JObject []]);
              ("x-deprecated", JBool true)]) =
  Return
    (JObject [("description", JString ("1,,2,3,[object Object]" ++ LF ++ "@deprecated"));
              ("x-deprecated", JBool true)]).
Proof. reflexivity. Qed.

Example loop_body_null_description :
  loop_body platform (JObject [("description", JNull); ("x-deprecated", JString "gone")]) =
  Return
    (JObject [("description", JString ("null" ++ LF ++ "@deprecated gone"));
              ("x-deprecated", JString "gone")]).
Proof. reflexivity. Qed.

(** An own [toString] member hides [Object.prototype.toString]. *)
Example loop_body_hidden_toString :
  loop_body platform
    (JObject [("description", JObject [("toString", JNumber 1%Z)]);
              ("x-deprecated", JBool true)]) = Throw TypeError.
Proof. reflexivity. Qed.

(** A run that writes its output next to the workspace root. *)
Example program_writes_output :
  let after := program platform ["/work/in.json"; "out.ts"] ready in
  fst after = 0%Z /\
  files (snd after) "./out.ts" =
  Some (File (header ++ String.concat LF interface ++ footer)) /\
  files (snd after) "/work/in.json" = files ready "/work/in.json" /\
  stdout (snd after) = [].
Proof. repeat split. Qed.

(** A relative reference is read next to the input file. *)
Example fetch_relative_file :
  fetch platform "/work/in.json"
    (workspace plain_schema [("/work/parts/a.json", File "{}")] offline) "parts/a.json" =
  Return (Some (JObject [])).
Proof. reflexivity. Qed.

End SampleRuns.

(** * The theorems at work on the sample platform *)

Import Sample.

Lemma C1_deprecated_description_witness :
  exists content' : json Z,
    appendDeprecatedDescription platform document = Return (stringify content') /\
    description platform content' "old" = Some (JString (LF ++ "@deprecated")) /\
    description platform content' "host" =
    Some (JString ("Host name." ++ LF ++ "@deprecated use X instead")).
Proof.
  assert (P : JSON_parse platform document = Some annotated_schema) by (vm_compute; reflexivity).
  assert (N : NoDup (property_keys platform annotated_schema))
    by (apply distinct_NoDup; vm_compute; reflexivity).
  destruct (C1_deprecated_description platform document annotated_schema "old"
              (JObject [("type", JString "string"); ("x-deprecated", JBool true)])
              P N eq_refl) as [total old].
  destruct (C1_deprecated_description platform document annotated_schema "host"
              (JObject [("description", JString "Host name.");
                        ("x-deprecated", JString "use X instead")])
              P N eq_refl) as [_ host].
  destruct (total eq_refl) as [content' H].
  exists content'.
  destruct (old content' H) as [O1 [O2 _]].
  destruct (host content' H) as [_ [_ H3]].
  split; [exact O1|]. split.
  - apply O2; reflexivity.
  - apply (H3 "use X instead" "Host name."); [discriminate | reflexivity | right; reflexivity].
Defined.

Lemma C5_unannotated_entry_untouched_witness :
  exists content' : json Z,
    appendDeprecatedDescription platform document = Return (stringify content') /\
    entry platform content' "port" =
    Some (JObject [("type", JString "number");
                   ("description", JString "Port to listen on.")]) /\
    description platform content' "port" = Some (JString "Port to listen on.").
Proof.
  assert (P : JSON_parse platform document = Some annotated_schema) by (vm_compute; reflexivity).
  assert (N : NoDup (property_keys platform annotated_schema))
    by (apply distinct_NoDup; vm_compute; reflexivity).
  destruct (C5_unannotated_entry_untouched platform document annotated_schema "port"
              (JObject [("type", JString "number");
                        ("description", JString "Port to listen on.")])
              P N eq_refl eq_refl) as [total port].
  destruct (total eq_refl) as [content' H].
  exists content'. exact (port content' H).
Defined.

Lemma C9_falsy_annotation_ignored_witness :
  exists content' : json Z,
    appendDeprecatedDescription platform document = Return (stringify content') /\
    entry platform content' "zero" = Some (JObject [("x-deprecated", JNumber 0%Z)]) /\
    description platform content' "zero" = None.
Proof.
  assert (P : JSON_parse platform document = Some annotated_schema) by (vm_compute; reflexivity).
  assert (N : NoDup (property_keys platform annotated_schema))
    by (apply distinct_NoDup; vm_compute; reflexivity).
  destruct (C9_falsy_annotation_ignored platform document annotated_schema "zero"
              (JObject [("x-deprecated", JNumber 0%Z)]) (JNumber 0%Z)
              P N eq_refl eq_refl) as [total zero].
  { right. right. left. exists 0%Z. split; reflexivity. }
  destruct (total eq_refl) as [content' H].
  exists content'. exact (zero content' H).
Defined.

Lemma C10_no_properties_identity_witness :
  appendDeprecatedDescription platform (stringify plain_schema) =
  Return (stringify plain_schema) /\
  exists out,
    appendDeprecatedDescription platform (stringify plain_schema) = Return out /\
    JSON_parse platform out = Some plain_schema.
Proof.
  assert (P : JSON_parse platform (stringify plain_schema) = Some plain_schema)
    by (vm_compute; reflexivity).
  assert (N : plain_schema <> JNull) by discriminate.
  destruct (C10_no_properties_identity platform (stringify plain_schema) plain_schema
              P N eq_refl) as [same [_ back]].
  split; [exact same | exact (back P)].
Defined.

(** On the platform with overflow, the schema [{"maximum":1e999}], which has
    no [properties], comes back as [{"maximum":null}]: the returned text
    does not parse to the input's parsed value. *)
Lemma C10_round_trip_fails :
  JSON_parse ieee overflowing = Some overflowed /\
  overflowed <> JNull /\
  get ieee overflowed "properties" = None /\
  appendDeprecatedDescription ieee overflowing = Return (JSON_stringify ieee written_back) /\
  JSON_parse ieee (JSON_stringify ieee written_back) = Some written_back /\
  ~ (exists out,
       appendDeprecatedDescription ieee overflowing = Return out /\
       JSON_parse ieee out = Some overflowed).
Proof.
  assert (A : appendDeprecatedDescription ieee overflowing =
              Return (JSON_stringify ieee written_back)) by (vm_compute; reflexivity).
  assert (B : JSON_parse ieee (JSON_stringify ieee written_back) = Some written_back)
    by (vm_compute; reflexivity).
  split; [vm_compute; reflexivity|]. split; [discriminate|]. split; [reflexivity|].
  split; [exact A|]. split; [exact B|].
  intros [out [R Q]].
  assert (E : out = JSON_stringify ieee written_back) by congruence.
  rewrite E, B in Q. discriminate.
Qed.

Lemma C2_answered_request_throws_witness :
  (let! text := appendDeprecatedDescription platform "{}" in
   let! schema := parseJSON platform text remote in
   Return (Some schema)) = Return (Some (JObject [])) /\
  fetch platform "/work/in.json" answering remote = Throw SyntaxError.
Proof.
  split; [vm_compute; reflexivity|].
  assert (U : URL_parse platform remote = Return (parse_url remote)) by reflexivity.
  assert (S : is_ng_cli (parse_url remote) = false) by (vm_compute; reflexivity).
  assert (H : has_hostname (parse_url remote) = true) by (vm_compute; reflexivity).
  assert (F : network answering remote = FetchResolved {| body_text := Return "{}" |})
    by reflexivity.
  assert (P : JSON_parse platform "[object Promise]" = None) by (vm_compute; reflexivity).
  exact (C2_answered_request_throws platform "/work/in.json" answering remote
           (parse_url remote)
           {| body_text := Return "{}" |} U S H F P).
Defined.

Lemma C3_unreadable_body_throws_witness :
  fetch platform "/work/in.json" bare remote = Return None /\
  fetch platform "/work/in.json" dropping remote = Throw SyntaxError.
Proof.
  assert (U : URL_parse platform remote = Return (parse_url remote)) by reflexivity.
  assert (S : is_ng_cli (parse_url remote) = false) by (vm_compute; reflexivity).
  assert (H : has_hostname (parse_url remote) = true) by (vm_compute; reflexivity).
  split.
  - assert (R : existsSync bare
                  (path_join platform [path_dirname platform "/work/in.json"; remote]) = false)
      by reflexivity.
    assert (L : existsSync bare remote = false) by reflexivity.
    destruct (C3_unreadable_body_throws platform "/work/in.json" bare remote
                (parse_url remote) U S H R L) as [rejected _].
    apply (rejected (LibraryError "fetch failed")). reflexivity.
  - assert (R : existsSync dropping
                  (path_join platform [path_dirname platform "/work/in.json"; remote]) = false)
      by reflexivity.
    assert (L : existsSync dropping remote = false) by reflexivity.
    destruct (C3_unreadable_body_throws platform "/work/in.json" dropping remote
                (parse_url remote) U S H R L) as [_ answered].
    apply (answered {| body_text := Throw (LibraryError "terminated") |});
      vm_compute; reflexivity.
Defined.

Lemma C4_custom_scheme_missing_file_witness :
  existsSync stray bundled = true /\
  fetch platform "/work/in.json" stray bundled =
  Throw (ENOENT "/repo/tools/../packages/angular/cli/config/schema.json") /\
  generate platform stray "/work/in.json" = Throw (LibraryError "SchemaFetchError") /\
  program platform ["/work/in.json"; "out.ts"] stray =
  (127%Z,
   console_error (Failure (LibraryError "SchemaFetchError"))
     (console_error (Line "An error happened:") stray)).
Proof.
  split; [reflexivity|].
  assert (A : (2 <= length ["/work/in.json"; "out.ts"] <= 3)%nat) by (simpl; lia).
  assert (U : URL_parse platform bundled = Return (parse_url bundled)) by reflexivity.
  assert (S : is_ng_cli (parse_url bundled) = true) by (vm_compute; reflexivity).
  assert (H : hostname (parse_url bundled) = Some "config") by (vm_compute; reflexivity).
  assert (P : path (parse_url bundled) = Some "/schema.json") by (vm_compute; reflexivity).
  destruct (C4_custom_scheme_missing_file platform ["/work/in.json"; "out.ts"] stray bundled
              (parse_url bundled) A U S) as [_ located].
  destruct (located "config" "/schema.json" H P) as [_ [_ absent]].
  destruct (absent eq_refl) as [thrown fatal].
  split; [exact thrown|].
  apply (fatal (stringify (referring_schema bundled)) (stringify (referring_schema bundled))
           needs_answer (LibraryError "SchemaFetchError")).
  - vm_compute. reflexivity.
  - vm_compute. reflexivity.
  - replace (quicktype platform (stringify (referring_schema bundled)))
      with (Resolve bundled needs_answer) by (vm_compute; reflexivity).
    apply asks_now.
  - reflexivity.
Defined.

Lemma C6_arguments_and_stdout_witness :
  program platform ["/work/in.json"] ready =
  (1%Z, console_error (Line "Must include 2 or 3 arguments.") ready) /\
  program platform ["/work/in.json"; "-"] ready = (0%Z, console_log (header ++ String.concat LF interface ++ footer) ready) /\
  files (snd (program platform ["/work/in.json"; "-"; "extra"] ready)) = files ready.
Proof.
  split; [|split].
  - apply (C6_arguments_and_stdout platform ["/work/in.json"] ready). simpl. lia.
  - destruct (C6_arguments_and_stdout platform ["/work/in.json"; "-"] ready) as [_ dash].
    destruct dash as [_ printed]; [simpl; lia | reflexivity |].
    apply printed. vm_compute. reflexivity.
  - destruct (C6_arguments_and_stdout platform ["/work/in.json"; "-"; "extra"] ready)
      as [_ dash].
    destruct dash as [kept _]; [simpl; lia | reflexivity |]. exact kept.
Defined.


Lemma C8_output_layout_witness :
  generate platform ready "/work/in.json" =
  Return (header ++ String.concat LF interface ++ footer) /\
  exists content schema lines,
    readFileSync ready "/work/in.json" = Return content /\
    appendDeprecatedDescription platform content = Return schema /\
    run platform (fetch platform "/work/in.json" ready) (quicktype platform schema) =
    Return lines /\
    header ++ String.concat LF interface ++ footer =
    header ++ String.concat LF lines ++ footer.
Proof.
  assert (G : generate platform ready "/work/in.json" =
              Return (header ++ String.concat LF interface ++ footer))
    by (vm_compute; reflexivity).
  split; [exact G|].
  destruct (C8_output_layout platform ready "/work/in.json"
              (header ++ String.concat LF interface ++ footer)) as [[layout _] _].
  exact (layout G).
Defined.

Lemma X1_entry_members_kept_witness :
  exists e' : json Z,
    entry platform annotated_once "host" = Some e' /\
    get platform e' "x-deprecated" = Some (JString "use X instead").
Proof.
  assert (N : NoDup (property_keys platform annotated_schema))
    by (apply distinct_NoDup; vm_compute; reflexivity).
  assert (H : annotate platform annotated_schema = Return annotated_once)
    by (vm_compute; reflexivity).
  assert (D : "x-deprecated" <> "description") by discriminate.
  exact (X1_entry_members_kept platform annotated_schema annotated_once "host"
           (JObject [("description", JString "Host name.");
                     ("x-deprecated", JString "use X instead")])
           "x-deprecated" N H eq_refl D).
Defined.

Lemma X2_names_and_order_kept_witness :
  appendDeprecatedDescription platform document = Return (stringify annotated_once) /\
  member_names platform annotated_once = ["type"; "properties"] /\
  property_keys platform annotated_once =
  ["old"; "port"; "host"; "off"; "zero"; "empty"; "none"] /\
  NoDup (property_keys platform annotated_once).
Proof.
  assert (P : JSON_parse platform document = Some annotated_schema)
    by (vm_compute; reflexivity).
  assert (N : NoDup (property_keys platform annotated_schema))
    by (apply distinct_NoDup; vm_compute; reflexivity).
  assert (H : annotate platform annotated_schema = Return annotated_once)
    by (vm_compute; reflexivity).
  exact (X2_names_and_order_kept platform document annotated_schema annotated_once P N H).
Defined.

Lemma X3_other_members_kept_witness :
  appendDeprecatedDescription platform document = Return (stringify annotated_once) /\
  get platform annotated_once "type" = Some (JString "object").
Proof.
  assert (P : JSON_parse platform document = Some annotated_schema)
    by (vm_compute; reflexivity).
  assert (H : annotate platform annotated_schema = Return annotated_once)
    by (vm_compute; reflexivity).
  assert (D : "type" <> "properties") by discriminate.
  exact (X3_other_members_kept platform document annotated_schema annotated_once "type"
           P H D).
Defined.

Lemma X4_bare_marker_and_coercion_witness :
  description platform coerced_once "n" = Some (JString ("5" ++ LF ++ "@deprecated")).
Proof.
  assert (N : NoDup (property_keys platform coerced_schema))
    by (apply distinct_NoDup; vm_compute; reflexivity).
  assert (H : annotate platform coerced_schema = Return coerced_once)
    by (vm_compute; reflexivity).
  assert (S : forall s, JNumber 1%Z <> @JString Z s) by discriminate.
  exact (X4_bare_marker_and_coercion platform coerced_schema coerced_once "n"
           (JObject [("description", JNumber 5%Z); ("x-deprecated", JNumber 1%Z)])
           (JNumber 1%Z) "5" N H eq_refl eq_refl eq_refl S eq_refl).
Defined.

Lemma X5_failure_characterised_witness :
  appendDeprecatedDescription platform (stringify broken_schema) = Throw TypeError.
Proof.
  assert (P : JSON_parse platform (stringify broken_schema) =
              Some (JObject [("properties", JObject [("a", JObject []); ("b", JNull)])]))
    by (vm_compute; reflexivity).
  assert (N : NoDup (keys [("a", @JObject Z []); ("b", JNull)]))
    by (apply distinct_NoDup; vm_compute; reflexivity).
  exact (X5_failure_characterised platform (stringify broken_schema)
           [("properties", JObject [("a", JObject []); ("b", JNull)])]
           [("a", JObject []); ("b", JNull)] P eq_refl N).
Defined.

Lemma X6_second_pass_appends_again_witness :
  description platform annotated_once "host" =
  Some (JString ("Host name." ++ LF ++ "@deprecated use X instead")) /\
  description platform annotated_twice "host" =
  Some (JString ("Host name." ++ LF ++ "@deprecated use X instead"
                 ++ LF ++ "@deprecated use X instead")).
Proof.
  assert (N : NoDup (property_keys platform annotated_schema))
    by (apply distinct_NoDup; vm_compute; reflexivity).
  assert (H1 : annotate platform annotated_schema = Return annotated_once)
    by (vm_compute; reflexivity).
  assert (H2 : annotate platform annotated_once = Return annotated_twice)
    by (vm_compute; reflexivity).
  exact (X6_second_pass_appends_again platform annotated_schema annotated_once
           annotated_twice "host"
           (JObject [("description", JString "Host name.");
                     ("x-deprecated", JString "use X instead")])
           (JString "use X instead") "Host name." N H1 H2 eq_refl eq_refl eq_refl eq_refl).
Defined.

Lemma X7_scalar_properties_identity_witness :
  appendDeprecatedDescription platform (stringify scalar_schema) =
  Return (stringify scalar_schema).
Proof.
  assert (P : JSON_parse platform (stringify scalar_schema) = Some scalar_schema)
    by (vm_compute; reflexivity).
  exact (X7_scalar_properties_identity platform (stringify scalar_schema) scalar_schema
           (JString "none") P eq_refl I).
Defined.

Lemma X8_array_properties_witness :
  exists (items' : list (json Z)) (e' : json Z),
    get platform array_once "properties" = Some (JArray items') /\
    length items' = 2 /\
    nth_error items' 1 = Some e' /\
    get platform e' "description" = Some (JString (LF ++ "@deprecated")).
Proof.
  assert (H : annotate platform array_schema = Return array_once)
    by (vm_compute; reflexivity).
  exact (X8_array_properties platform array_schema array_once
           [JBool true; JObject [("x-deprecated", JBool true)]] 1
           (JObject [("x-deprecated", JBool true)]) "" eq_refl H eq_refl eq_refl eq_refl).
Defined.

Lemma X9_relative_file_first_witness :
  existsSync shelves "parts/a.json" = true /\
  fetch platform "/work/in.json" shelves "parts/a.json" = Return (Some (JObject [])).
Proof.
  split; [reflexivity|].
  assert (U : URL_parse platform "parts/a.json" = Return (parse_url "parts/a.json"))
    by reflexivity.
  assert (S : is_ng_cli (parse_url "parts/a.json") = false) by (vm_compute; reflexivity).
  assert (N : unanswered shelves "parts/a.json" (parse_url "parts/a.json"))
    by (left; vm_compute; reflexivity).
  assert (A : path_isAbsolute platform "parts/a.json" = false) by reflexivity.
  assert (F : files shelves
                (path_join platform [path_dirname platform "/work/in.json"; "parts/a.json"]) =
              Some (File "{}")) by reflexivity.
  rewrite (X9_relative_file_first platform "/work/in.json" shelves "parts/a.json"
             (parse_url "parts/a.json") "{}" U S N A F).
  vm_compute. reflexivity.
Defined.

Lemma X10_literal_file_trimmed_witness :
  fetch platform "/work/in.json" shelves "/schemas/b.json" = Return (Some (JArray [])).
Proof.
  assert (U : URL_parse platform "/schemas/b.json" = Return (parse_url "/schemas/b.json"))
    by reflexivity.
  assert (S : is_ng_cli (parse_url "/schemas/b.json") = false) by (vm_compute; reflexivity).
  assert (N : unanswered shelves "/schemas/b.json" (parse_url "/schemas/b.json"))
    by (left; vm_compute; reflexivity).
  assert (R : path_isAbsolute platform "/schemas/b.json" = true \/
              files shelves
                (path_join platform
                   [path_dirname platform "/work/in.json"; "/schemas/b.json"]) = None)
    by (left; reflexivity).
  assert (F : files shelves "/schemas/b.json" = Some (File " [] ")) by reflexivity.
  rewrite (X10_literal_file_trimmed platform "/work/in.json" shelves "/schemas/b.json"
             (parse_url "/schemas/b.json") " [] " U S N R F).
  vm_compute. reflexivity.
Defined.

Lemma X11_absence_characterised_witness :
  fetch platform "/work/in.json" shelves "parts/missing.json" = Return None.
Proof.
  apply (proj2 (X11_absence_characterised platform "/work/in.json" shelves
                  "parts/missing.json")).
  exists (parse_url "parts/missing.json").
  split; [reflexivity|]. split; [vm_compute; reflexivity|].
  split; [left; vm_compute; reflexivity|].
  split; [right; reflexivity | reflexivity].
Defined.

Lemma X12_directory_is_not_skipped_witness :
  fetch platform "/work/in.json" shelves "parts" = Throw (EISDIR "/work/parts") /\
  fetch platform "/work/in.json" shelves "./out" = Throw (EISDIR "./out").
Proof.
  split.
  - assert (U : URL_parse platform "parts" = Return (parse_url "parts")) by reflexivity.
    assert (S : is_ng_cli (parse_url "parts") = false) by (vm_compute; reflexivity).
    assert (N : unanswered shelves "parts" (parse_url "parts"))
      by (left; vm_compute; reflexivity).
    destruct (X12_directory_is_not_skipped platform "/work/in.json" shelves "parts"
                (parse_url "parts") U S N) as [relative _].
    exact (relative eq_refl eq_refl).
  - assert (U : URL_parse platform "./out" = Return (parse_url "./out")) by reflexivity.
    assert (S : is_ng_cli (parse_url "./out") = false) by (vm_compute; reflexivity).
    assert (N : unanswered shelves "./out" (parse_url "./out"))
      by (left; vm_compute; reflexivity).
    destruct (X12_directory_is_not_skipped platform "/work/in.json" shelves "./out"
                (parse_url "./out") U S N) as [_ literal].
    apply literal; [right; reflexivity | reflexivity].
Defined.

Lemma X13_network_not_consulted_witness :
  fetch platform "/work/in.json" (packaged (serving (Return "[]"))) bundled =
  fetch platform "/work/in.json" (packaged offline) bundled.
Proof.
  assert (U : URL_parse platform bundled = Return (parse_url bundled)) by reflexivity.
  assert (C : is_ng_cli (parse_url bundled) = true \/ has_hostname (parse_url bundled) = false)
    by (left; vm_compute; reflexivity).
  exact (X13_network_not_consulted platform "/work/in.json" (packaged offline)
           (packaged (serving (Return "[]"))) bundled (parse_url bundled) U C eq_refl).
Defined.

Lemma X15_only_two_arguments_read_witness :
  program platform ["/work/in.json"; "out.ts"; "--verbose"] ready =
  program platform ["/work/in.json"; "out.ts"] ready.
Proof.
  apply X15_only_two_arguments_read; [simpl; lia | simpl; lia | reflexivity | reflexivity].
Defined.

Lemma X16_output_written_witness :
  fst (program platform ["/work/in.json"; "out.ts"] ready) = 0%Z /\
  files (snd (program platform ["/work/in.json"; "out.ts"] ready)) "./out.ts" =
  Some (File (header ++ String.concat LF interface ++ footer)) /\
  (forall file, file <> "./out.ts" ->
     files (snd (program platform ["/work/in.json"; "out.ts"] ready)) file =
     files ready file) /\
  stdout (snd (program platform ["/work/in.json"; "out.ts"] ready)) = [] /\
  stderr (snd (program platform ["/work/in.json"; "out.ts"] ready)) = [].
Proof.
  assert (A : (2 <= length ["/work/in.json"; "out.ts"] <= 3)%nat) by (simpl; lia).
  assert (O : nth 1 ["/work/in.json"; "out.ts"] "" <> "-") by discriminate.
  assert (G : generate platform ready (nth 0 ["/work/in.json"; "out.ts"] "") =
              Return (header ++ String.concat LF interface ++ footer))
    by (vm_compute; reflexivity).
  assert (B : (BUILD_WORKSPACE_DIRECTORY ready = None /\ "." = ".") \/
              (BUILD_WORKSPACE_DIRECTORY ready = Some "" /\ "." = ".") \/
              (BUILD_WORKSPACE_DIRECTORY ready = Some "." /\ "." <> ""))
    by (left; split; reflexivity).
  assert (D : files ready (path_resolve platform "." (nth 1 ["/work/in.json"; "out.ts"] ""))
              <> Some Directory) by discriminate.
  assert (P : files ready
                (path_dirname platform
                   (path_resolve platform "." (nth 1 ["/work/in.json"; "out.ts"] ""))) =
              Some Directory) by reflexivity.
  assert (N : denied ready (path_resolve platform "." (nth 1 ["/work/in.json"; "out.ts"] ""))
              = None) by reflexivity.
  exact (X16_output_written platform ["/work/in.json"; "out.ts"] ready
           (header ++ String.concat LF interface ++ footer) "." A O G B D P N).
Defined.

Lemma X17_input_errors_witness :
  program platform ["/work/in.json"; "out.ts"] bare =
  (127%Z, console_error (Failure (ENOENT "/work/in.json"))
            (console_error (Line "An error happened:") bare)) /\
  program platform ["/schemas/b.json"; "-"]
    (machine [("/schemas/b.json", File "[object Promise]")] offline) =
  (127%Z, console_error (Failure SyntaxError)
            (console_error (Line "An error happened:")
               (machine [("/schemas/b.json", File "[object Promise]")] offline))).
Proof.
  split.
  - destruct (X17_input_errors platform ["/work/in.json"; "out.ts"] bare) as [missing _].
    { simpl. lia. }
    exact (missing eq_refl).
  - destruct (X17_input_errors platform ["/schemas/b.json"; "-"]
                (machine [("/schemas/b.json", File "[object Promise]")] offline))
      as [_ malformed].
    { simpl. lia. }
    apply (malformed "[object Promise]"); [reflexivity | vm_compute; reflexivity].
Defined.

Lemma X18_output_is_directory_witness :
  program platform ["/work/in.json"; "out"] shelves =
  (127%Z, console_error (Failure (EISDIR "./out"))
            (console_error (Line "An error happened:") shelves)) /\
  program platform ["/work/in.json"; "nodir/x.ts"] rooted =
  (127%Z, console_error (Failure (ENOENT "/work/nodir/x.ts"))
            (console_error (Line "An error happened:") rooted)).
Proof.
  split.
  - assert (A : (2 <= length ["/work/in.json"; "out"] <= 3)%nat) by (simpl; lia).
    assert (O : nth 1 ["/work/in.json"; "out"] "" <> "-") by discriminate.
    assert (G : generate platform shelves (nth 0 ["/work/in.json"; "out"] "") =
                Return (header ++ String.concat LF interface ++ footer))
      by (vm_compute; reflexivity).
    assert (B : (BUILD_WORKSPACE_DIRECTORY shelves = None /\ "." = ".") \/
                (BUILD_WORKSPACE_DIRECTORY shelves = Some "" /\ "." = ".") \/
                (BUILD_WORKSPACE_DIRECTORY shelves = Some "." /\ "." <> ""))
      by (left; split; reflexivity).
    destruct (X18_output_is_directory platform ["/work/in.json"; "out"] shelves
                (header ++ String.concat LF interface ++ footer) "." A O G B)
      as [directory _].
    exact (directory eq_refl).
  - assert (A : (2 <= length ["/work/in.json"; "nodir/x.ts"] <= 3)%nat) by (simpl; lia).
    assert (O : nth 1 ["/work/in.json"; "nodir/x.ts"] "" <> "-") by discriminate.
    assert (G : generate platform rooted (nth 0 ["/work/in.json"; "nodir/x.ts"] "") =
                Return (header ++ String.concat LF interface ++ footer))
      by (vm_compute; reflexivity).
    assert (B : (BUILD_WORKSPACE_DIRECTORY rooted = None /\ "/work" = ".") \/
                (BUILD_WORKSPACE_DIRECTORY rooted = Some "" /\ "/work" = ".") \/
                (BUILD_WORKSPACE_DIRECTORY rooted = Some "/work" /\ "/work" <> ""))
      by (right; right; split; [reflexivity | discriminate]).
    destruct (X18_output_is_directory platform ["/work/in.json"; "nodir/x.ts"] rooted
                (header ++ String.concat LF interface ++ footer) "/work" A O G B)
      as [_ missing].
    apply missing; [discriminate | reflexivity].
Defined.
